(** * django-imt-fork: SQLite test-database life cycle and the test-runner driver

    A shallow embedding of
      - [django/db/backends/sqlite3/creation.py] (class [DatabaseCreation]) and
      - [tests/runtests.py] ([setup], [teardown], [bisect_tests], [paired_tests]).

    Both files are scripts over an environment (the file system, standard
    streams, sub-processes, Django's application loader).  Every call into the
    environment is an _event_ of a small interaction tree; the Python objects
    the scripts mutate (settings dictionaries, the settings module, lists) live
    in an explicit store that is threaded through the tree.  A property that
    holds for every environment is stated over [exec], the set of all runs of a
    program; [run] executes a program against a concrete environment. *)

From stdpp Require Import base gmap strings list fin_maps pretty.

Open Scope string_scope.
Open Scope Z_scope.
Set Warnings "-register-all".

(** ** Python exceptions that the two files can raise or let through *)

Inductive exn :=
| SystemExit (code : Z)          (* sys.exit(code) *)
| KeyError (key : string)        (* d[key] on a missing key *)
| AttributeError (name : string) (* obj.name on a missing attribute *)
| TypeError (msg : string)       (* wrong argument count or argument type *)
| OSError (msg : string)         (* an uncaught failure of an os call *)
| NoObject.                      (* a store location that holds no object *)

(** ** Calls into the environment *)

Inductive event : Type → Type :=
| Print (line : string) : event unit
| StderrWrite (text : string) : event unit
| Input (prompt : string) : event string
| OsAccess (path : string) : event bool
    (* os.access(path, os.F_OK) *)
| OsRemove (path : string) : event (option string)
    (* os.remove(path): [None] on success, [Some msg] when it raises an
       exception [e] with [str(e) = msg] *)
| ShutilCopy (src dst : string) : event (option string)
    (* shutil.copy(src, dst), same convention *)
| SubprocessCall (args : list string) : event Z
    (* subprocess.call(args): the exit status *)
| OsListdir (path : string) : event (list string)
| OsIsfile (path : string) : event bool
| GetApps : event (list string)
    (* django.db.models.loading.get_apps(): the [__name__] of each app *)
| LoadApp (label : string) : event bool
    (* load_app(label): whether the result is truthy *)
| AddLogHandler : event unit.
    (* logging.getLogger('py.warnings').addHandler(StreamHandler()) *)

(** What an observer of a run sees: the call together with its answer. *)
Inductive action :=
| APrint (line : string)
| AStderr (text : string)
| AInput (prompt answer : string)
| AAccess (path : string) (found : bool)
| ARemove (path : string) (err : option string)
| ACopy (src dst : string) (err : option string)
| ACall (args : list string) (status : Z)
| AListdir (path : string) (entries : list string)
| AIsfile (path : string) (b : bool)
| AGetApps (apps : list string)
| ALoadApp (label : string) (loaded : bool)
| AAddLogHandler.

Definition observe {X} (e : event X) : X → action :=
  match e in event X return X → action with
  | Print s => λ _, APrint s
  | StderrWrite s => λ _, AStderr s
  | Input p => λ a, AInput p a
  | OsAccess p => λ b, AAccess p b
  | OsRemove p => λ r, ARemove p r
  | ShutilCopy s d => λ r, ACopy s d r
  | SubprocessCall args => λ z, ACall args z
  | OsListdir p => λ l, AListdir p l
  | OsIsfile p => λ b, AIsfile p b
  | GetApps => λ l, AGetApps l
  | LoadApp l => λ b, ALoadApp l b
  | AddLogHandler => λ _, AAddLogHandler
  end.

(** ** Programs: finite interaction trees with exceptions *)

Inductive prog (A : Type) : Type :=
| Ret (a : A)
| Raise (e : exn)
| Vis {X : Type} (e : event X) (k : X → prog A).
Arguments Ret {A} a.
Arguments Raise {A} e.
Arguments Vis {A X} e k.

Inductive outcome (A : Type) : Type :=
| Done (a : A)
| Raised (e : exn).
Arguments Done {A} a.
Arguments Raised {A} e.

Fixpoint prog_bind {A B} (p : prog A) (f : A → prog B) : prog B :=
  match p with
  | Ret a => f a
  | Raise e => Raise e
  | Vis e k => Vis e (λ x, prog_bind (k x) f)
  end.

(** [exec p t o]: some environment makes [p] perform exactly the calls [t]
    (with the answers recorded in [t]) and end in [o]. *)
Fixpoint exec {A} (p : prog A) (t : list action) (o : outcome A) : Prop :=
  match p with
  | Ret a => t = [] ∧ o = Done a
  | Raise e => t = [] ∧ o = Raised e
  | Vis e k => ∃ x t', t = observe e x :: t' ∧ exec (k x) t' o
  end.

(** A concrete environment: a world [W] and an answer to every call. *)
Definition handler (W : Type) : Type := ∀ X, event X → W → X * W.

Fixpoint run {W A} (h : handler W) (p : prog A) (w : W)
  : list action * outcome A * W :=
  match p with
  | Ret a => ([], Done a, w)
  | Raise e => ([], Raised e, w)
  | Vis e k =>
      let '(x, w1) := h _ e w in
      let '(t, o, w2) := run h (k x) w1 in
      (observe e x :: t, o, w2)
  end.

(** ** Programs over a store of Python objects *)

Definition M (S A : Type) : Type := S → prog (A * S).

Definition ret {S A} (a : A) : M S A := λ σ, Ret (a, σ).
Definition bind {S A B} (m : M S A) (f : A → M S B) : M S B :=
  λ σ, prog_bind (m σ) (λ '(a, σ1), f a σ1).
Definition raise {S A} (e : exn) : M S A := λ _, Raise e.
Definition call {S X} (e : event X) : M S X := λ σ, Vis e (λ x, Ret (x, σ)).

(** [harmless m]: no run of [m] raises or changes the store. *)
Definition harmless {S A} (m : M S A) : Prop :=
  ∀ σ t o, exec (m σ) t o → ∃ a, o = Done (a, σ).

Declare Scope py_scope.
Delimit Scope py_scope with py.
Notation "x <- m ;; k" := (bind m (λ x, k))
  (at level 100, m at next level, right associativity) : py_scope.
Notation "m ;; k" := (bind m (λ _, k))
  (at level 100, right associativity) : py_scope.
Open Scope py_scope.

Definition print {S} (line : string) : M S unit := call (Print line).
Definition sys_stderr_write {S} (text : string) : M S unit := call (StderrWrite text).
Definition sys_exit {S A} (code : Z) : M S A := raise (SystemExit code).
Definition when {S} (b : bool) (m : M S unit) : M S unit := if b then m else ret tt.

(* "\n" *)
Definition LF : string := String (Ascii.ascii_of_nat 10) EmptyString.

(** The calls a run makes that change the file system. *)
Definition is_fs_write (a : action) : bool :=
  match a with ARemove _ _ | ACopy _ _ _ => true | _ => false end.
Definition fs_writes (t : list action) : list action := List.filter is_fs_write t.

(** The sub-processes a run starts, with their exit statuses. *)
Definition calls (t : list action) : list (list string * Z) :=
  omap (λ a, match a with ACall args z => Some (args, z) | _ => None end) t.

(** Store locations (object identities). *)
Abbreviation loc := positive.

(** * django/db/backends/sqlite3/creation.py *)

Module Creation.

(** Values found under the keys of a connection's [settings_dict] that the
    class reads ([NAME], [TEST_NAME]): a string or [None]. *)
Inductive value := VNone | VStr (s : string).

Definition truthy (v : value) : bool :=
  match v with VNone => false | VStr s => negb (String.eqb s "") end.
(* v != s for a string literal s *)
Definition ne_str (v : value) (s : string) : bool :=
  match v with VNone => true | VStr s' => negb (String.eqb s' s) end.
Definition eq_str (v : value) (s : string) : bool := negb (ne_str v s).
(* '%s' % v *)
Definition fmt (v : value) : string :=
  match v with VNone => "None" | VStr s => s end.

(** The store: every dictionary object, by identity. *)
Abbreviation dict := (gmap string value).
Abbreviation store := (gmap loc dict).

Record connection := { settings_dict : loc; alias : string }.

(* d[key] *)
Definition getitem (d : loc) (key : string) : M store value :=
  λ σ, match σ !! d with
       | None => Raise NoObject
       | Some m => match m !! key with
                   | None => Raise (KeyError key)
                   | Some v => Ret (v, σ)
                   end
       end.
(* d[key] = v *)
Definition setitem (d : loc) (key : string) (v : value) : M store unit :=
  λ σ, match σ !! d with
       | None => Raise NoObject
       | Some m => Ret (tt, <[d := <[key := v]> m]> σ)
       end.
(* d.copy(): a new dictionary object with the same items *)
Definition dict_copy (d : loc) : M store loc :=
  λ σ, match σ !! d with
       | None => Raise NoObject
       | Some m => let d' := fresh (dom σ) in Ret (d', <[d' := m]> σ)
       end.
(* a path argument of os.access, os.remove, shutil.copy, os.path.splitext *)
Definition path_arg (v : value) : M store string :=
  match v with
  | VStr s => ret s
  | VNone => raise (TypeError "expected a path string, got None")
  end.

(* data_types, lines 11-34 *)
Definition data_types : gmap string string :=
  list_to_map
    [ ("AutoField",                  "integer");
      ("BooleanField",               "bool");
      ("CharField",                  "varchar(%(max_length)s)");
      ("CommaSeparatedIntegerField", "varchar(%(max_length)s)");
      ("DateField",                  "date");
      ("DateTimeField",              "datetime");
      ("DecimalField",               "decimal");
      ("FileField",                  "varchar(%(max_length)s)");
      ("FilePathField",              "varchar(%(max_length)s)");
      ("FloatField",                 "real");
      ("IntegerField",               "integer");
      ("BigIntegerField",            "bigint");
      ("IPAddressField",             "char(15)");
      ("GenericIPAddressField",      "char(39)");
      ("NullBooleanField",           "bool");
      ("OneToOneField",              "integer");
      ("PositiveIntegerField",       "integer unsigned");
      ("PositiveSmallIntegerField",  "smallint unsigned");
      ("SlugField",                  "varchar(%(max_length)s)");
      ("SmallIntegerField",          "smallint");
      ("TextField",                  "text");
      ("TimeField",                  "time") ].

Section DatabaseCreation.

(** [connection.is_in_memory_db] belongs to the backend's [base.py] and
    [os.path.splitext] to the platform's path module; the class is verified
    for every choice of the two. *)
Variable is_in_memory_db : value → bool.
Variable os_path_splitext : string → string * string.

(* lines 44-48 *)
Definition _get_test_db_name (self : connection) : M store value :=
  test_database_name <- getitem (settings_dict self) "TEST_NAME";;
  if truthy test_database_name && ne_str test_database_name ":memory:"
  then ret test_database_name
  else ret (VStr ":memory:").

(* lines 60-64 and 92-96: try: os.remove(p) except Exception as e: ... *)
Definition remove_or_exit (path : string) : M store unit :=
  r <- call (OsRemove path);;
  match r with
  | None => ret tt
  | Some e =>
      sys_stderr_write ("Got an error deleting the old test database: " +:+ e +:+ LF);;
      sys_exit 2
  end.

(* lines 50-68 *)
Definition _create_test_db (self : connection) (verbosity : Z) (autoclobber : bool)
  : M store value :=
  test_database_name <- _get_test_db_name self;;
  (if ne_str test_database_name ":memory:" then
     when (1 <=? verbosity)
       (print ("Destroying old test database '" +:+ alias self +:+ "'..."));;
     path <- path_arg test_database_name;;
     found <- call (OsAccess path);;
     if found : bool then
       (* [confirm] is bound only when [autoclobber] is false *)
       confirm <- (if negb autoclobber
                   then a <- call (Input ("Type 'yes' if you would like to try deleting the test database '" +:+ fmt test_database_name +:+ "', or 'no' to cancel: "));;
                        ret (Some a)
                   else ret None);;
       if autoclobber || bool_decide (confirm = Some "yes")
       then remove_or_exit path
       else print "Tests cancelled.";; sys_exit 1
     else ret tt
   else ret tt);;
  ret test_database_name.

(* lines 77-78: root, ext = os.path.splitext(name);
   '{}_{}.{}'.format(root, number, ext) *)
Definition clone_name (name : string) (number : Z) : string :=
  let '(root, ext) := os_path_splitext name in
  root +:+ "_" +:+ pretty number +:+ "." +:+ ext.

(* lines 70-79 *)
Definition get_test_db_clone_settings (self : connection) (number : Z) : M store loc :=
  let orig_settings_dict := settings_dict self in
  source_database_name <- getitem orig_settings_dict "NAME";;
  if is_in_memory_db source_database_name then ret orig_settings_dict
  else
    new_settings_dict <- dict_copy orig_settings_dict;;
    name <- getitem orig_settings_dict "NAME";;
    path <- path_arg name;;
    setitem new_settings_dict "NAME" (VStr (clone_name path number));;
    ret new_settings_dict.

(* lines 97-101 *)
Definition copy_or_exit (src dst : value) : M store unit :=
  s <- path_arg src;;
  d <- path_arg dst;;
  r <- call (ShutilCopy s d);;
  match r with
  | None => ret tt
  | Some e =>
      sys_stderr_write ("Got an error cloning the test database: " +:+ e +:+ LF);;
      sys_exit 2
  end.

(* lines 81-101; the early [return] of line 89 is the branch that skips
   both the removal and the copy *)
Definition _clone_test_db (self : connection) (number verbosity : Z) (keepdb : bool)
  : M store unit :=
  source_database_name <- getitem (settings_dict self) "NAME";;
  clone <- get_test_db_clone_settings self number;;
  target_database_name <- getitem clone "NAME";;
  if negb (is_in_memory_db source_database_name) then
    target <- path_arg target_database_name;;
    found <- call (OsAccess target);;
    if found : bool then
      if keepdb then ret tt
      else
        when (1 <=? verbosity)
          (print ("Destroying old test database '" +:+ fmt target_database_name +:+ "'..."));;
        remove_or_exit target;;
        copy_or_exit source_database_name target_database_name
    else copy_or_exit source_database_name target_database_name
  else ret tt.

(* lines 103-106; os.remove is not guarded here *)
Definition _destroy_test_db (self : connection) (test_database_name : value)
    (verbosity : Z) : M store unit :=
  if truthy test_database_name && ne_str test_database_name ":memory:" then
    path <- path_arg test_database_name;;
    r <- call (OsRemove path);;
    match r with
    | None => ret tt
    | Some e => raise (OSError e)
    end
  else ret tt.

(* lines 111-124; the tuple is returned as the list of its components *)
Definition test_db_signature (self : connection) : M store (list value) :=
  test_dbname <- _get_test_db_name self;;
  name <- getitem (settings_dict self) "NAME";;
  let sig := [name] in
  if eq_str test_dbname ":memory:"
  then ret (sig ++ [VStr (alias self)])%list
  else ret sig.

End DatabaseCreation.

(** The test of lines 46 and 104: the name denotes a database file. *)
Definition file_based (test_database_name : value) : bool :=
  truthy test_database_name && ne_str test_database_name ":memory:".

End Creation.

(** * tests/runtests.py *)

Module Runtests.

(** Values of the attributes of [django.conf.settings].  A Python list is a
    mutable object and is held by reference; tuples, strings, integers and
    [None] are immutable and held by value. *)
Inductive value :=
| VNone
| VStr (s : string)
| VInt (z : Z)
| VTuple (items : list value)
| VList (r : loc).

(** The objects [runtests.py] mutates: the attributes of the settings object
    and the list objects. *)
Record pystore := {
  settings : gmap string value;
  lists : gmap loc (list value)
}.

(* module constants, lines 19-21 and 34-58 *)
Definition CONTRIB_MODULE_PATH : string := "django.contrib".
Definition TEST_TEMPLATE_DIR : string := "templates".

Definition SUBDIRS_TO_SKIP : list string :=
  [ "templates"; "test_discovery_sample"; "test_discovery_sample2";
    "test_runner_deprecation_app"; "test_runner_invalid_app" ].

(** [ALWAYS_INSTALLED_APPS] names one list object for the whole run. *)
Definition ALWAYS_INSTALLED_APPS : loc := 1%positive.

(** The items of that list when the module has just been loaded. *)
Definition ALWAYS_INSTALLED_APPS_items : list value :=
  VStr <$>
  [ "django.contrib.contenttypes"; "django.contrib.auth"; "django.contrib.sites";
    "django.contrib.flatpages"; "django.contrib.redirects";
    "django.contrib.sessions"; "django.contrib.messages";
    "django.contrib.comments"; "django.contrib.admin";
    "django.contrib.admindocs"; "django.contrib.staticfiles";
    "django.contrib.humanize" ].

(** ** String and list helpers of the Python runtime *)

(* s.split(c) *)
Fixpoint split_on (c : Ascii.ascii) (s : string) : list string :=
  match s with
  | EmptyString => [EmptyString]
  | String a s' =>
      if Ascii.eqb a c then EmptyString :: split_on c s'
      else match split_on c s' with
           | [] => [String a EmptyString]
           | w :: ws => String a w :: ws
           end
  end.

(* c in s *)
Fixpoint has_char (c : Ascii.ascii) (s : string) : bool :=
  match s with
  | EmptyString => false
  | String a s' => Ascii.eqb a c || has_char c s'
  end.

Definition dot : Ascii.ascii := Ascii.ascii_of_nat 46.

(* s.rsplit('.', 1)[0]: everything before the last dot, and s itself when
   it has none *)
Definition rsplit_dot_head (s : string) : string :=
  match split_on dot s with
  | [] | [_] => s
  | bits => String.concat "." (take (length bits - 1)%nat bits)
  end.

(* l.remove(x) inside try/except ValueError: the first occurrence goes, and
   a list without x is left as it is *)
Fixpoint list_remove (x : string) (l : list string) : list string :=
  match l with
  | [] => []
  | y :: l' => if String.eqb y x then l' else y :: list_remove x l'
  end.

(* x == s for a string s *)
Definition is_str (s : string) (x : value) : bool :=
  match x with VStr s' => String.eqb s' s | _ => false end.

(* the truth value of an exit status *)
Definition nonzero (z : Z) : bool := negb (z =? 0).

(** ** Attribute and list operations *)

(* settings.name *)
Definition getattr (name : string) : M pystore value :=
  λ σ, match settings σ !! name with
       | Some v => Ret (v, σ)
       | None => Raise (AttributeError name)
       end.
(* getattr(settings, name, default) *)
Definition getattr_default (name : string) (d : value) : M pystore value :=
  λ σ, Ret (default d (settings σ !! name), σ).
(* setattr(settings, name, v) *)
Definition setattr (name : string) (v : value) : M pystore unit :=
  λ σ, Ret (tt, {| settings := <[name := v]> (settings σ); lists := lists σ |}).

(* s in container *)
Definition contains (container : value) (s : string) : M pystore bool :=
  match container with
  | VList r => λ σ, match lists σ !! r with
                    | Some l => Ret (existsb (is_str s) l, σ)
                    | None => Raise NoObject
                    end
  | VTuple l => ret (existsb (is_str s) l)
  | _ => raise (TypeError "argument is not iterable")
  end.
(* container.append(s) *)
Definition append (container : value) (s : string) : M pystore unit :=
  match container with
  | VList r => λ σ, match lists σ !! r with
                    | Some l =>
                        Ret (tt, {| settings := settings σ;
                                    lists := <[r := (l ++ [VStr s])%list]> (lists σ) |})
                    | None => Raise NoObject
                    end
  | _ => raise (AttributeError "append")
  end.

(** The dictionary [state] that [setup] returns, in the order of its literal. *)
Abbreviation state := (list (string * value)).

Record options := {
  o_verbosity : Z;
  o_settings : string;
  o_failfast : bool;
  o_interactive : bool
}.

(** ** The interpreter

    The script is written for Python 2 and for Python 3: it imports [six]
    (line 17) and skips the byte-code directories of PEP 3147 (line 68).  The
    two differ in [/] on integers, which is the quotient on Python 2 and
    gives a float on Python 3. *)
Inductive python := Python2 | Python3.

(* the value of n/d for integers: an int, or the float n/d *)
Inductive number :=
  | PyInt (n : nat)
  | PyFloat (numerator denominator : nat).

(* an index of a slice l[:m] or l[m:] has to be an int *)
Definition slice_index (m : number) : M pystore nat :=
  match m with
  | PyInt n => ret n
  | PyFloat _ _ =>
      raise (TypeError "slice indices must be integers or None or have an __index__ method")
  end.

Section Script.

(** The interpreter that runs the script. *)
Variable py : python.

(** Values fixed when the script starts (lines 23-26) and the path functions
    of the platform. *)
Variables RUNTESTS_DIR CONTRIB_DIR TEMP_DIR DJANGO_DIR : string.
Variables sys_executable script_file : string.
Variable os_path_join : string → string → string.
Variable os_path_basename : string → string.

(* the body of the inner loop of get_test_modules, lines 66-74 *)
Fixpoint scan_dir (modpath : option string) (entries : list string)
  : M pystore (list (option string * string)) :=
  match entries with
  | [] => ret []
  | f :: rest =>
      skip <- (if has_char dot f
                  || String.eqb f "__pycache__"
                  || String.prefix "sql" f
                  || bool_decide (os_path_basename f ∈ SUBDIRS_TO_SKIP)
               then ret true
               else call (OsIsfile f));;
      modules <- scan_dir modpath rest;;
      ret (if skip : bool then modules else (modpath, f) :: modules)
  end.

(* lines 61-75 *)
Definition get_test_modules : M pystore (list (option string * string)) :=
  entries1 <- call (OsListdir RUNTESTS_DIR);;
  modules1 <- scan_dir None entries1;;
  entries2 <- call (OsListdir CONTRIB_DIR);;
  modules2 <- scan_dir (Some CONTRIB_MODULE_PATH) entries2;;
  ret (modules1 ++ modules2)%list.

(* lines 78-80 *)
Definition get_installed : M pystore (list string) :=
  apps <- call GetApps;;
  ret (rsplit_dot_head <$> apps).

(* lines 124-131 *)
Definition reduce_label (label : string) : string :=
  let bits := split_on dot label in
  let bits := if bool_decide (take 2 bits = ["django"; "contrib"])
              then take 3 bits else take 1 bits in
  String.concat "." bits.

Definition reduce_labels (test_labels : list string) : gset string :=
  list_to_set (reduce_label <$> test_labels).

(* the lambda of lines 152-155 *)
Definition label_match (module_label label : string) : bool :=
  String.eqb module_label label || String.prefix (label +:+ ".") module_label.

(* lines 141-165 *)
Fixpoint load_test_modules (verbosity : Z) (test_labels : list string)
    (test_labels_set : gset string) (test_modules : list (option string * string))
  : M pystore unit :=
  match test_modules with
  | [] => ret tt
  | (modpath, module_name) :: rest =>
      let module_label :=
        match modpath with
        | Some p => if negb (String.eqb p "")
                    then String.concat "." [p; module_name] else module_name
        | None => module_name
        end in
      let module_found_in_labels :=
        match test_labels with
        | [] => true
        | _ => existsb (label_match module_label) (elements test_labels_set)
        end in
      (if module_found_in_labels then
         when (2 <=? verbosity) (print ("Importing application " +:+ module_name));;
         mod_ <- call (LoadApp module_label);;
         if mod_ : bool then
           apps <- getattr "INSTALLED_APPS";;
           present <- contains apps module_label;;
           if present : bool then ret tt
           else apps <- getattr "INSTALLED_APPS";;
                append apps module_label
         else ret tt
       else ret tt);;
      load_test_modules verbosity test_labels test_labels_set rest
  end.

(* lines 83-167 *)
Definition setup (verbosity : Z) (test_labels : list string) (parallel : Z)
  : M pystore state :=
  v1 <- getattr "INSTALLED_APPS";;
  v2 <- getattr_default "ROOT_URLCONF" (VStr "");;
  v3 <- getattr "TEMPLATE_DIRS";;
  v4 <- getattr "LANGUAGE_CODE";;
  v5 <- getattr "STATIC_URL";;
  v6 <- getattr "STATIC_ROOT";;
  let state := [ ("INSTALLED_APPS", v1); ("ROOT_URLCONF", v2);
                 ("TEMPLATE_DIRS", v3); ("LANGUAGE_CODE", v4);
                 ("STATIC_URL", v5); ("STATIC_ROOT", v6) ] in
  setattr "INSTALLED_APPS" (VList ALWAYS_INSTALLED_APPS);;
  setattr "ROOT_URLCONF" (VStr "urls");;
  setattr "STATIC_URL" (VStr "/static/");;
  setattr "STATIC_ROOT" (VStr (os_path_join TEMP_DIR "static"));;
  setattr "TEMPLATE_DIRS" (VTuple [VStr (os_path_join RUNTESTS_DIR TEST_TEMPLATE_DIR)]);;
  setattr "LANGUAGE_CODE" (VStr "en");;
  setattr "SITE_ID" (VInt 1);;
  when (0 <? verbosity) (call AddLogHandler);;
  when (1 <=? verbosity)
    (let msg := "Testing against Django installed in '" +:+ DJANGO_DIR +:+ "'" in
     let msg := if 1 <? parallel
                then msg +:+ " with " +:+ pretty parallel +:+ " processes" else msg in
     print msg);;
  call GetApps;;
  test_modules <- get_test_modules;;
  let test_labels_set := reduce_labels test_labels in
  load_test_modules verbosity test_labels test_labels_set test_modules;;
  ret state.

(** The settings that [state] records. *)
Definition saved_settings : list string :=
  [ "INSTALLED_APPS"; "ROOT_URLCONF"; "TEMPLATE_DIRS"; "LANGUAGE_CODE";
    "STATIC_URL"; "STATIC_ROOT" ].

(* lines 170-179 *)
Fixpoint teardown (state : state) : M pystore unit :=
  match state with
  | [] => ret tt
  | (key, value) :: rest => setattr key value;; teardown rest
  end.

(** [bisect_tests] (line 218) and [paired_tests] (line 276) call
    [setup(int(options.verbosity), test_labels)]: two arguments for the three
    parameters of [setup], none of which has a default.  Python rejects the
    call before the body of [setup] runs; the message is the one of Python
    2.7, Python 3 words it differently. *)
Definition setup_two_arguments (verbosity : Z) (test_labels : list string)
  : M pystore state :=
  raise (TypeError "setup() takes exactly 3 arguments (2 given)").

(* lines 232-239 and 290-297 *)
Definition subprocess_args (opts : options) : list string :=
  ([sys_executable; script_file; "--settings=" +:+ o_settings opts]
   ++ (if o_failfast opts then ["--failfast"] else [])
   ++ (if nonzero (o_verbosity opts)
       then ["--verbosity=" +:+ pretty (o_verbosity opts)] else [])
   ++ (if negb (o_interactive opts) then ["--noinput"] else []))%list.

(* lines 224-230 and 282-288 *)
Definition drop_special (label : string) (test_labels : list string) : list string :=
  list_remove "model_inheritance_same_model_name" (list_remove label test_labels).

(* len(test_labels)/2, line 243 *)
Definition half_len (test_labels : list string) : number :=
  match py with
  | Python2 => PyInt (length test_labels / 2)
  | Python3 => PyFloat (length test_labels) 2
  end.

(** The [while] loop of lines 241-268.  The slice of line 244 is where a
    midpoint that is a float is rejected, before anything is printed.  The
    loop is unfolded at most [fuel] times and answers [None] when that is not
    enough; [len(test_labels)] unfoldings always are. *)
Fixpoint bisect_loop (bisection_label : string) (args : list string)
    (fuel : nat) (test_labels : list string) (iteration : nat)
  : M pystore (option (list string)) :=
  if bool_decide (1 < length test_labels)%nat then
    match fuel with
    | O => ret None
    | S fuel =>
        let midpoint := half_len test_labels in
        midpoint <- slice_index midpoint;;
        let test_labels_a := (take midpoint test_labels ++ [bisection_label])%list in
        let test_labels_b := (drop midpoint test_labels ++ [bisection_label])%list in
        print ("***** Pass " +:+ pretty iteration +:+ "a: Running the first half of the test suite");;
        print ("***** Test labels: " +:+ String.concat " " test_labels_a);;
        failures_a <- call (SubprocessCall (args ++ test_labels_a));;
        print ("***** Pass " +:+ pretty iteration +:+ "b: Running the second half of the test suite");;
        print ("***** Test labels: " +:+ String.concat " " test_labels_b);;
        print "";;
        failures_b <- call (SubprocessCall (args ++ test_labels_b));;
        if nonzero failures_a && negb (nonzero failures_b) then
          print "***** Problem found in first half. Bisecting again...";;
          bisect_loop bisection_label args fuel
            (take (length test_labels_a - 1)%nat test_labels_a) (iteration + 1)%nat
        else if nonzero failures_b && negb (nonzero failures_a) then
          print "***** Problem found in second half. Bisecting again...";;
          bisect_loop bisection_label args fuel
            (take (length test_labels_b - 1)%nat test_labels_b) (iteration + 1)%nat
        else if nonzero failures_a && nonzero failures_b then
          print "***** Multiple sources of failure found";;
          ret (Some test_labels)
        else
          print "***** No source of failure found... try pair execution (--pair)";;
          ret (Some test_labels)
    end
  else ret (Some test_labels).

(* lines 220-272, for the dictionary [st] that line 218 binds to [state] *)
Definition bisect_tests_body (bisection_label : string) (opts : options)
    (test_labels : list string) (st : state) : M pystore (option unit) :=
  test_labels <- (match test_labels with [] => get_installed | _ => ret test_labels end);;
  print ("***** Bisecting test suite: " +:+ String.concat " " test_labels);;
  let test_labels := drop_special bisection_label test_labels in
  r <- bisect_loop bisection_label (subprocess_args opts)
         (length test_labels) test_labels 1%nat;;
  match r with
  | None => ret None
  | Some test_labels =>
      match test_labels with
      | [source] => print ("***** Source of error: " +:+ source)
      | _ => ret tt
      end;;
      teardown st;;
      ret (Some tt)
  end.

(* lines 217-272 *)
Definition bisect_tests (bisection_label : string) (opts : options)
    (test_labels : list string) : M pystore (option unit) :=
  st <- setup_two_arguments (o_verbosity opts) test_labels;;
  bisect_tests_body bisection_label opts test_labels st.

(** The [for] loop of lines 299-305; the answer tells whether the loop was
    left by the [return] of line 305. *)
Fixpoint paired_loop (paired_test : string) (args : list string) (total : nat)
    (i : nat) (test_labels : list string) : M pystore bool :=
  match test_labels with
  | [] => ret false
  | label :: rest =>
      print ("***** " +:+ pretty (i + 1)%nat +:+ " of " +:+ pretty total
             +:+ ": Check test pairing with " +:+ label);;
      failures <- call (SubprocessCall (args ++ [label; paired_test]));;
      if nonzero failures then
        print ("***** Found problem pair with " +:+ label);;
        ret true
      else paired_loop paired_test args total (S i) rest
  end.

(* lines 278-308, for the dictionary [st] that line 276 binds to [state] *)
Definition paired_tests_body (paired_test : string) (opts : options)
    (test_labels : list string) (st : state) : M pystore unit :=
  test_labels <- (match test_labels with [] => get_installed | _ => ret test_labels end);;
  print "***** Trying paired execution";;
  let test_labels := drop_special paired_test test_labels in
  returned <- paired_loop paired_test (subprocess_args opts)
                (length test_labels) 0%nat test_labels;;
  if returned : bool then ret tt
  else print "***** No problem pair found";; teardown st.

(* lines 275-308 *)
Definition paired_tests (paired_test : string) (opts : options)
    (test_labels : list string) : M pystore unit :=
  st <- setup_two_arguments (o_verbosity opts) test_labels;;
  paired_tests_body paired_test opts test_labels st.

End Script.

End Runtests.

(** * A concrete environment

    A small operating system against which the programs can be run: a set of
    existing files, some of them protected against removal and overwriting, a
    queue of console answers, and test labels whose presence on a command
    line makes the sub-process fail. *)

Module Env.

Record world := {
  files : list string;
  locked : list string;
  answers : list string;
  culprits : list string;
  entries : list string;
  apps : list string
}.

Definition has (x : string) (l : list string) : bool := bool_decide (x ∈ l).

Definition set_files (fs : list string) (w : world) : world :=
  {| files := fs; locked := locked w; answers := answers w;
     culprits := culprits w; entries := entries w; apps := apps w |}.
Definition set_answers (a : list string) (w : world) : world :=
  {| files := files w; locked := locked w; answers := a;
     culprits := culprits w; entries := entries w; apps := apps w |}.

Definition respond : handler world :=
  λ X e, match e in event X return world → X * world with
  | Print _ => λ w, (tt, w)
  | StderrWrite _ => λ w, (tt, w)
  | Input _ => λ w, match answers w with
                    | [] => ("", w)
                    | a :: rest => (a, set_answers rest w)
                    end
  | OsAccess p => λ w, (has p (files w), w)
  | OsRemove p => λ w,
      if has p (files w) && negb (has p (locked w))
      then (None, set_files (List.filter (λ f, negb (String.eqb f p)) (files w)) w)
      else (Some ("cannot remove " +:+ p), w)
  | ShutilCopy s d => λ w,
      if has s (files w) && negb (has d (locked w))
      then (None, set_files (d :: files w) w)
      else (Some ("cannot copy to " +:+ d), w)
  | SubprocessCall args => λ w,
      (if existsb (λ a, has a (culprits w)) args then 1 else 0, w)
  | OsListdir _ => λ w, (entries w, w)
  | OsIsfile _ => λ w, (false, w)
  | GetApps => λ w, (apps w, w)
  | LoadApp _ => λ w, (true, w)
  | AddLogHandler => λ w, (tt, w)
  end.

(* a platform: the in-memory test of the backend and a splitext that cuts
   at the last dot *)
Definition is_in_memory_db (name : Creation.value) : bool :=
  Creation.eq_str name ":memory:".

Fixpoint splitext (s : string) : string * string :=
  match s with
  | EmptyString => (EmptyString, EmptyString)
  | String a s' =>
      let '(root, ext) := splitext s' in
      if negb (String.eqb ext "") then (String a root, ext)
      else if Ascii.eqb a Runtests.dot then (EmptyString, String a s')
      else (String a root, EmptyString)
  end.

Definition path_join (a b : string) : string := a +:+ "/" +:+ b.

Definition quiet : world :=
  {| files := []; locked := []; answers := []; culprits := [];
     entries := []; apps := [] |}.

(* a connection whose database and test database are files, and one whose
   test database is left to the default *)
Definition on_disk : Creation.connection :=
  {| Creation.settings_dict := 1%positive; Creation.alias := "default" |}.
Definition in_memory : Creation.connection :=
  {| Creation.settings_dict := 2%positive; Creation.alias := "other" |}.
Definition bare : Creation.connection :=
  {| Creation.settings_dict := 3%positive; Creation.alias := "bare" |}.

Definition disk_settings : gmap string Creation.value :=
  {[ "NAME" := Creation.VStr "db.sqlite3";
     "TEST_NAME" := Creation.VStr "test.sqlite3" ]}.
Definition memory_settings : gmap string Creation.value :=
  {[ "NAME" := Creation.VStr "db.sqlite3"; "TEST_NAME" := Creation.VNone ]}.

Definition databases : gmap loc (gmap string Creation.value) :=
  {[ 1%positive := disk_settings;
     2%positive := memory_settings;
     3%positive := {[ "NAME" := Creation.VStr "db.sqlite3" ]} ]}.

(* a file system that holds the database and its test database; in the
   second one the test database and the first clone cannot be removed or
   overwritten *)
Definition with_test_db : world :=
  {| files := ["db.sqlite3"; "test.sqlite3"; "db_1..sqlite3"]; locked := [];
     answers := ["no"]; culprits := []; entries := []; apps := [] |}.
Definition read_only : world :=
  {| files := ["db.sqlite3"; "test.sqlite3"; "db_1..sqlite3"];
     locked := ["test.sqlite3"; "db_1..sqlite3"; "db_2..sqlite3"];
     answers := ["yes"]; culprits := []; entries := []; apps := [] |}.

(* test suites: one in which the label y fails whenever it runs, one in
   which the bisection label b fails on its own *)
Definition y_fails : world :=
  {| files := []; locked := []; answers := []; culprits := ["y"];
     entries := []; apps := [] |}.
Definition b_fails : world :=
  {| files := []; locked := []; answers := []; culprits := ["b"];
     entries := []; apps := [] |}.

(* the settings object as Django's defaults leave it, and the list objects
   when the script has just been loaded *)
Definition django_settings : gmap string Runtests.value :=
  {[ "INSTALLED_APPS" := Runtests.VTuple [];
     "TEMPLATE_DIRS" := Runtests.VTuple [];
     "LANGUAGE_CODE" := Runtests.VStr "en-us";
     "STATIC_URL" := Runtests.VNone;
     "STATIC_ROOT" := Runtests.VStr "" ]}.

Definition at_start : Runtests.pystore :=
  {| Runtests.settings := django_settings;
     Runtests.lists :=
       {[ Runtests.ALWAYS_INSTALLED_APPS := Runtests.ALWAYS_INSTALLED_APPS_items ]} |}.

Definition opts : Runtests.options :=
  {| Runtests.o_verbosity := 1; Runtests.o_settings := "test_sqlite";
     Runtests.o_failfast := false; Runtests.o_interactive := true |}.

(* a checkout with two test packages *)
Definition checkout : world :=
  {| files := []; locked := []; answers := []; culprits := [];
     entries := ["basic"; "runtests.py"; "templates"; "queries"]; apps := [] |}.

End Env.

(** * tests/runtests.py: running the suite *)

Module Driver.
Import Runtests.

(** The command line after [parse_args] (lines 357-370): the options that
    [options] above lacks. *)
Record cli := {
  c_options : options;
  c_modules : list string;
  c_bisect : option string;
  c_pair : option string;
  c_parallel : Z
}.

(* the truth value of an optional string argument *)
Definition given (arg : option string) : bool :=
  match arg with
  | Some s => negb (String.eqb s "")
  | None => false
  end.

Section Driver.

Variable py : python.
Variables RUNTESTS_DIR CONTRIB_DIR TEMP_DIR DJANGO_DIR : string.
Variables sys_executable script_file : string.
Variable os_path_join : string → string → string.
Variable os_path_basename : string → string.

(** What the script takes from Django and from the platform: whether [os]
    has [fork], [features.can_clone_databases] of every connection,
    [default_test_processes()], and the runner: [run_tests verbosity
    interactive failfast parallel labels] stands for
    [DiscoverRunner(verbosity=.., interactive=.., failfast=..,
    parallel=..).run_tests(labels, extra_tests=[])], any program at all. *)
Variable has_fork : bool.
Variable can_clone_databases : list bool.
Variable default_test_processes : Z.
Variable run_tests : Z → bool → bool → Z → list string → M pystore Z.

(* lines 182-193 *)
Definition actual_test_processes (parallel : Z) : Z :=
  if parallel =? 0 then
    if negb has_fork then 1
    else if forallb id can_clone_databases then default_test_processes
    else 1
  else parallel.

(* lines 197-214 *)
Definition django_tests (verbosity : Z) (interactive failfast : bool)
    (test_labels : list string) (parallel : Z) : M pystore Z :=
  state <- setup RUNTESTS_DIR CONTRIB_DIR TEMP_DIR DJANGO_DIR os_path_join
             os_path_basename verbosity test_labels parallel;;
  let processes := actual_test_processes parallel in
  labels <- (match test_labels with [] => get_installed | _ => ret test_labels end);;
  failures <- run_tests verbosity interactive failfast processes labels;;
  teardown state;;
  ret failures.

(* lines 385-397; sys.exit(bool(failures)) exits with status 1 *)
Definition dispatch (c : cli) : M pystore unit :=
  let opts := c_options c in
  if given (c_bisect c) then
    bisect_tests py sys_executable script_file (default "" (c_bisect c)) opts
      (c_modules c);;
    ret tt
  else if given (c_pair c) then
    paired_tests sys_executable script_file (default "" (c_pair c)) opts
      (c_modules c)
  else
    failures <- django_tests (o_verbosity opts) (o_interactive opts)
                  (o_failfast opts) (c_modules c) (c_parallel c);;
    if nonzero failures then sys_exit 1 else ret tt.

End Driver.

End Driver.

Module Sample.

(* a runner that changes settings while it runs and reports two failures *)
Definition runner (verbosity : Z) (interactive failfast : bool) (parallel : Z)
    (labels : list string) : M Runtests.pystore Z :=
  Runtests.setattr "LANGUAGE_CODE" (Runtests.VStr "fr");;
  Runtests.setattr "DEBUG" (Runtests.VInt 0);;
  call (SubprocessCall labels);;
  ret 2.

Definition direct : Driver.cli :=
  {| Driver.c_options := Env.opts; Driver.c_modules := ["basic"];
     Driver.c_bisect := None; Driver.c_pair := None; Driver.c_parallel := 0 |}.

(* runtests.py --bisect basic *)
Definition bisecting : Driver.cli :=
  {| Driver.c_options := Env.opts; Driver.c_modules := [];
     Driver.c_bisect := Some "basic"; Driver.c_pair := None;
     Driver.c_parallel := 0 |}.

(* settings without LANGUAGE_CODE *)
Definition no_language : Runtests.pystore :=
  {| Runtests.settings := delete "LANGUAGE_CODE" Env.django_settings;
     Runtests.lists := Runtests.lists Env.at_start |}.

(* the settings once [setup] has pointed INSTALLED_APPS at its list *)
Definition redirected : Runtests.pystore :=
  {| Runtests.settings :=
       <["INSTALLED_APPS" := Runtests.VList Runtests.ALWAYS_INSTALLED_APPS]>
         Env.django_settings;
     Runtests.lists := Runtests.lists Env.at_start |}.

(* test modules: one new, one that is always installed, the new one again *)
Definition modules : list (option string * string) :=
  [ (None, "basic"); (Some "django.contrib", "auth"); (None, "basic") ].

(* a recorded state *)
Definition saved : list (string * Runtests.value) :=
  [ ("LANGUAGE_CODE", Runtests.VStr "en-us"); ("STATIC_URL", Runtests.VNone) ].

End Sample.
(** * General facts about runs *)

Section Runs.
Context {A : Type}.

Lemma run_exec {W} (h : handler W) (p : prog A) (w : W) :
  exec p (run h p w).1.1 (run h p w).1.2.
Proof.
  revert w. induction p as [a|e|X e k IH]; intros w; simpl; [done..|].
  destruct (h X e w) as [x w1] eqn:Hh.
  specialize (IH x w1). destruct (run h (k x) w1) as [[t o] w2]. simpl in *.
  by exists x, t.
Qed.

Lemma exec_total (p : prog A) : ∃ t o, exec p t o.
Proof.
  exists (run Env.respond p Env.quiet).1.1, (run Env.respond p Env.quiet).1.2.
  apply run_exec.
Qed.

Lemma exec_prog_bind {B} (p : prog A) (f : A → prog B) t o :
  exec (prog_bind p f) t o ↔
    (∃ a t1 t2, exec p t1 (Done a) ∧ exec (f a) t2 o ∧ t = (t1 ++ t2)%list)
    ∨ (∃ e, exec p t (Raised e) ∧ o = Raised e).
Proof.
  revert t. induction p as [a|e|X e k IH]; intros t; simpl.
  - split.
    + intros H. left. by exists a, [], t.
    + intros [(a' & t1 & t2 & [-> Ha] & Hf & ->)|(e & [_ He] & _)]; [|done]. by simplify_eq.
  - split.
    + intros [-> ->]. right. by exists e.
    + intros [(a' & t1 & t2 & [_ Ha] & _)|(e' & [-> He] & ->)]; [done|]. by simplify_eq.
  - split.
    + intros (x & t' & -> & H). apply IH in H as [(a & t1 & t2 & H1 & H2 & ->)|(e' & H1 & ->)].
      * left. exists a, (observe e x :: t1), t2. split_and!; [|done..]. by exists x, t1.
      * right. exists e'. split; [|done]. by exists x, t'.
    + intros [(a & t1 & t2 & (x & t' & -> & H1) & H2 & ->)|(e' & (x & t' & -> & H1) & ->)].
      * exists x, (t' ++ t2)%list. split; [done|]. apply IH. left. by exists a, t', t2.
      * exists x, t'. split; [done|]. apply IH. right. by exists e'.
Qed.
End Runs.

Lemma exec_bind {S A B} (m : M S A) (f : A → M S B) σ t o :
  exec (bind m f σ) t o ↔
    (∃ a σ1 t1 t2, exec (m σ) t1 (Done (a, σ1)) ∧ exec (f a σ1) t2 o ∧ t = (t1 ++ t2)%list)
    ∨ (∃ e, exec (m σ) t (Raised e) ∧ o = Raised e).
Proof.
  unfold bind. rewrite exec_prog_bind. split.
  - intros [([a σ1] & t1 & t2 & ?)|?]; [left; by exists a, σ1, t1, t2|by right].
  - intros [(a & σ1 & t1 & t2 & ?)|?]; [left; by exists (a, σ1), t1, t2|by right].
Qed.

(** Taking apart a run of a program whose tree is known. *)
Ltac exec_step H :=
  match type of H with
  | ex _ =>
      let x := fresh "x" in
      let t := fresh "t" in
      destruct H as (x & t & -> & H); simpl in H
  | _ ∧ _ => destruct H as [? ?]; simplify_eq
  | context [match ?b with _ => _ end] => destruct b eqn:?; simpl in H
  end.
Ltac exec_inv H :=
  unfold when, print, sys_stderr_write, sys_exit, call, ret, raise, bind in H;
  simpl in H; repeat exec_step H.

(** Locating an action in a trace that is known item by item. *)
Ltac find_action :=
  repeat match goal with
  | H : _ = (?pre ++ _ :: _)%list |- _ => is_var pre; destruct pre; simplify_eq/=
  end.

(** * Properties of django/db/backends/sqlite3/creation.py *)

Module CreationProofs.
Import Creation.

Lemma truthy_str s : truthy (VStr s) = true ↔ s ≠ "".
Proof.
  simpl. destruct (String.eqb_spec s ""); simpl; split; congruence.
Qed.

Lemma ne_str_str s s' : ne_str (VStr s) s' = true ↔ s ≠ s'.
Proof.
  simpl. destruct (String.eqb_spec s s'); simpl; split; congruence.
Qed.

Lemma file_based_str v :
  file_based v = true ↔ ∃ s, v = VStr s ∧ s ≠ "" ∧ s ≠ ":memory:".
Proof.
  unfold file_based. rewrite andb_true_iff. split.
  - destruct v as [|s]; simpl; [intros [[=] _]|].
    intros [H1 H2]. exists s. split; [done|].
    split; [by apply truthy_str|by apply ne_str_str].
  - intros (s & -> & H1 & H2). split; [by apply truthy_str|by apply ne_str_str].
Qed.

Lemma file_based_false v :
  file_based v = false ↔ v = VNone ∨ v = VStr "" ∨ v = VStr ":memory:".
Proof.
  split.
  - intros H. destruct v as [|s]; [by left|right].
    destruct (decide (s = "")) as [->|H1]; [by left|].
    destruct (decide (s = ":memory:")) as [->|H2]; [by right|].
    assert (file_based (VStr s) = true) by (apply file_based_str; eauto).
    congruence.
  - by intros [->|[->| ->]].
Qed.

Lemma getitem_eq d key σ m v :
  σ !! d = Some m → m !! key = Some v → getitem d key σ = Ret (v, σ).
Proof. intros H1 H2. unfold getitem. by rewrite H1, H2. Qed.

Lemma getitem_missing d key σ m :
  σ !! d = Some m → m !! key = None → getitem d key σ = Raise (KeyError key).
Proof. intros H1 H2. unfold getitem. by rewrite H1, H2. Qed.

Lemma get_test_db_name_eq self σ m v :
  σ !! settings_dict self = Some m → m !! "TEST_NAME" = Some v →
  _get_test_db_name self σ
  = Ret (if file_based v then v else VStr ":memory:", σ).
Proof.
  intros H1 H2. unfold _get_test_db_name, bind.
  rewrite (getitem_eq _ _ _ _ _ H1 H2). simpl. fold (file_based v).
  by destruct (file_based v).
Qed.

Section Claims.
Variable is_in_memory_db : value → bool.
Variable os_path_splitext : string → string * string.

(** C10 (as amended).  For a settings dictionary that has a [TEST_NAME] item,
    [_get_test_db_name] returns that item when it is a non-empty string other
    than [':memory:'], and [':memory:'] when it is [None], the empty string or
    [':memory:']; when the dictionary has no [TEST_NAME] item the subscript of
    line 45 raises [KeyError].  No run returns the empty string. *)
Theorem get_test_db_name_cases (self : connection) (σ : store) (m : dict)
    (Hm : σ !! settings_dict self = Some m) :
  (∀ s, m !! "TEST_NAME" = Some (VStr s) → s ≠ "" → s ≠ ":memory:" →
        _get_test_db_name self σ = Ret (VStr s, σ))
  ∧ (∀ v, m !! "TEST_NAME" = Some v →
          v = VNone ∨ v = VStr "" ∨ v = VStr ":memory:" →
          _get_test_db_name self σ = Ret (VStr ":memory:", σ))
  ∧ (m !! "TEST_NAME" = None →
     _get_test_db_name self σ = Raise (KeyError "TEST_NAME"))
  ∧ (∀ t σ', ¬ exec (_get_test_db_name self σ) t (Done (VStr "", σ'))).
Proof.
  split_and!.
  - intros s Hs H1 H2. rewrite (get_test_db_name_eq _ _ _ _ Hm Hs).
    assert (file_based (VStr s) = true) as -> by (apply file_based_str; eauto).
    done.
  - intros v Hv Hcase. rewrite (get_test_db_name_eq _ _ _ _ Hm Hv).
    apply file_based_false in Hcase. by rewrite Hcase.
  - intros Hnone. unfold _get_test_db_name, bind.
    by rewrite (getitem_missing _ _ _ _ Hm Hnone).
  - intros t σ' H. destruct (m !! "TEST_NAME") as [v|] eqn:Hv.
    + rewrite (get_test_db_name_eq _ _ _ _ Hm Hv) in H. simpl in H.
      destruct H as [_ H]. destruct (file_based v) eqn:Hf; [|done].
      apply file_based_str in Hf as (s & -> & Hne & _). congruence.
    + unfold _get_test_db_name, bind in H.
      rewrite (getitem_missing _ _ _ _ Hm Hv) in H. simpl in H. by destruct H.
Qed.

(** C9 (as amended).  [test_db_signature] returns [(NAME,)] when the test
    database name is file-based and [(NAME, alias)] when it is [':memory:'];
    two connections with the same [NAME] and different aliases receive
    distinct signatures exactly when at least one of their test databases is
    in memory. *)
Theorem test_db_signature_cases (c1 c2 : connection) (σ : store) (m1 m2 : dict)
    (name t1 t2 : value)
    (Hm1 : σ !! settings_dict c1 = Some m1)
    (Hm2 : σ !! settings_dict c2 = Some m2)
    (Hn1 : m1 !! "NAME" = Some name) (Hn2 : m2 !! "NAME" = Some name)
    (Ht1 : m1 !! "TEST_NAME" = Some t1) (Ht2 : m2 !! "TEST_NAME" = Some t2)
    (Halias : alias c1 ≠ alias c2) :
  let sig c t := if file_based t then [name] else [name; VStr (alias c)] in
  test_db_signature c1 σ = Ret (sig c1 t1, σ)
  ∧ test_db_signature c2 σ = Ret (sig c2 t2, σ)
  ∧ (sig c1 t1 ≠ sig c2 t2 ↔ file_based t1 = false ∨ file_based t2 = false).
Proof.
  intros sig.
  assert (∀ c m t, σ !! settings_dict c = Some m → m !! "NAME" = Some name →
                   m !! "TEST_NAME" = Some t →
                   test_db_signature c σ = Ret (sig c t, σ)) as Hsig.
  { intros c m t Hm Hn Ht. unfold test_db_signature, bind.
    rewrite (get_test_db_name_eq _ _ _ _ Hm Ht). simpl.
    rewrite (getitem_eq _ _ _ _ _ Hm Hn). simpl. unfold sig, eq_str.
    destruct (file_based t) eqn:Hf.
    - apply file_based_str in Hf as (s & -> & _ & Hne).
      apply ne_str_str in Hne. by rewrite Hne.
    - done. }
  split_and!; [by eapply Hsig..|].
  unfold sig. destruct (file_based t1), (file_based t2); split; try done.
  all: try (intros _; by right). all: try (intros _; by left).
  - by intros [|].
  - intros _ Heq. apply Halias. congruence.
Qed.

(** C7.  [data_types] maps each of its twenty-two field names to one SQLite
    column type; in particular [AutoField], [IntegerField] and
    [OneToOneField] map to [integer], [CharField] and [SlugField] to
    [varchar(%(max_length)s)], [BooleanField] and [NullBooleanField] to
    [bool], and [TextField] to [text]. *)
Theorem data_types_table :
  data_types !! "AutoField" = Some "integer"
  ∧ data_types !! "IntegerField" = Some "integer"
  ∧ data_types !! "OneToOneField" = Some "integer"
  ∧ data_types !! "CharField" = Some "varchar(%(max_length)s)"
  ∧ data_types !! "SlugField" = Some "varchar(%(max_length)s)"
  ∧ data_types !! "BooleanField" = Some "bool"
  ∧ data_types !! "NullBooleanField" = Some "bool"
  ∧ data_types !! "TextField" = Some "text"
  ∧ data_types !! "CommaSeparatedIntegerField" = Some "varchar(%(max_length)s)"
  ∧ data_types !! "DateField" = Some "date"
  ∧ data_types !! "DateTimeField" = Some "datetime"
  ∧ data_types !! "DecimalField" = Some "decimal"
  ∧ data_types !! "FileField" = Some "varchar(%(max_length)s)"
  ∧ data_types !! "FilePathField" = Some "varchar(%(max_length)s)"
  ∧ data_types !! "FloatField" = Some "real"
  ∧ data_types !! "BigIntegerField" = Some "bigint"
  ∧ data_types !! "IPAddressField" = Some "char(15)"
  ∧ data_types !! "GenericIPAddressField" = Some "char(39)"
  ∧ data_types !! "PositiveIntegerField" = Some "integer unsigned"
  ∧ data_types !! "PositiveSmallIntegerField" = Some "smallint unsigned"
  ∧ data_types !! "SmallIntegerField" = Some "smallint"
  ∧ data_types !! "TimeField" = Some "time"
  ∧ size data_types = 22%nat.
Proof. vm_compute. repeat split. Qed.

(** The result of [get_test_db_clone_settings] for a file-based source
    database: a copy at an unused location, with a new [NAME]. *)
Lemma clone_settings_copy (self : connection) (number : Z) (σ : store)
    (m : dict) (src : string) :
  σ !! settings_dict self = Some m →
  m !! "NAME" = Some (VStr src) →
  is_in_memory_db (VStr src) = false →
  let new := fresh (dom σ) in
  new ≠ settings_dict self
  ∧ get_test_db_clone_settings is_in_memory_db os_path_splitext self number σ
    = Ret (new, <[new := <["NAME" := VStr (clone_name os_path_splitext src number)]> m]>
                  (<[new := m]> σ)).
Proof.
  intros Hm Hname Hfile new.
  assert (new ≠ settings_dict self) as Hnew.
  { intros Heq. apply (is_fresh (dom σ)). fold new. rewrite Heq.
    apply elem_of_dom. by rewrite Hm. }
  split; [done|].
  unfold get_test_db_clone_settings, bind.
  rewrite (getitem_eq _ _ _ _ _ Hm Hname). simpl. rewrite Hfile.
  unfold dict_copy. rewrite Hm. simpl. fold new.
  assert ((<[new := m]> σ) !! settings_dict self = Some m) as Hm'
    by (by rewrite lookup_insert_ne).
  rewrite (getitem_eq _ _ _ _ _ Hm' Hname). simpl.
  unfold setitem. by rewrite lookup_insert_eq.
Qed.

(** C8.  For a file-based source database [get_test_db_clone_settings]
    returns a new dictionary object that agrees with the connection's
    settings dictionary on every key other than [NAME]; the connection's
    dictionary, like every other object of the store, is left as it was. *)
Theorem clone_settings_frame (self : connection) (number : Z) (σ : store)
    (m : dict) (src : string)
    (Hm : σ !! settings_dict self = Some m)
    (Hname : m !! "NAME" = Some (VStr src))
    (Hfile : is_in_memory_db (VStr src) = false) :
  ∃ (new : loc) (σ' : store) (m' : dict),
    get_test_db_clone_settings is_in_memory_db os_path_splitext self number σ
    = Ret (new, σ')
    ∧ new ≠ settings_dict self
    ∧ σ' !! new = Some m'
    ∧ (∀ key, key ≠ "NAME" → m' !! key = m !! key)
    ∧ m' !! "NAME" = Some (VStr (clone_name os_path_splitext src number))
    ∧ σ' !! settings_dict self = Some m
    ∧ (∀ l, l ≠ new → σ' !! l = σ !! l).
Proof.
  destruct (clone_settings_copy self number σ m src Hm Hname Hfile) as [Hnew Heq].
  eexists _, _, _. split; [exact Heq|]. split_and!.
  - done.
  - by rewrite lookup_insert_eq.
  - intros key Hkey. by rewrite lookup_insert_ne.
  - by rewrite lookup_insert_eq.
  - by rewrite !lookup_insert_ne.
  - intros l Hl. by rewrite !lookup_insert_ne.
Qed.

(** C6.  [_destroy_test_db] issues exactly one call, [os.remove] of the
    given name, when the name is a non-empty string other than [':memory:'];
    for [None], the empty string and [':memory:'] it makes no call at all. *)
Theorem destroy_test_db_effects (self : connection) (name : value)
    (verbosity : Z) (σ : store) (t : list action) (o : outcome (unit * store))
    (Hrun : exec (_destroy_test_db self name verbosity σ) t o) :
  (∀ s, name = VStr s → s ≠ "" → s ≠ ":memory:" →
        ∃ r, t = [ARemove s r]
             ∧ o = match r with
                   | None => Done (tt, σ)
                   | Some e => Raised (OSError e)
                   end)
  ∧ (name = VNone ∨ name = VStr "" ∨ name = VStr ":memory:" →
     t = [] ∧ o = Done (tt, σ)).
Proof.
  unfold _destroy_test_db in Hrun. fold (file_based name) in Hrun. split.
  - intros s -> H1 H2.
    assert (file_based (VStr s) = true) as Hf by (apply file_based_str; eauto).
    rewrite Hf in Hrun. unfold bind in Hrun. exec_inv Hrun.
    + by eexists (Some _).
    + by exists None.
  - intros Hcase. apply file_based_false in Hcase. rewrite Hcase in Hrun.
    by exec_inv Hrun.
Qed.

(** C2.  When the source [NAME] is an in-memory database [_clone_test_db]
    makes no call at all.  When it is file-based the first call asks whether
    the target named by [get_test_db_clone_settings] exists; if it does and
    [keepdb] is set nothing else happens; otherwise an existing target is
    removed and then the source is copied to the target (the copy is not
    attempted when the removal fails), and no other change of the file system
    is requested. *)
Theorem clone_test_db_effects (self : connection) (number verbosity : Z)
    (keepdb : bool) (σ : store) (m : dict) (src : string)
    (t : list action) (o : outcome (unit * store))
    (Hm : σ !! settings_dict self = Some m)
    (Hname : m !! "NAME" = Some (VStr src))
    (Hrun : exec (_clone_test_db is_in_memory_db os_path_splitext
                    self number verbosity keepdb σ) t o) :
  let target := clone_name os_path_splitext src number in
  if is_in_memory_db (VStr src) then t = [] ∧ o = Done (tt, σ)
  else
    (∃ new σ' m',
        get_test_db_clone_settings is_in_memory_db os_path_splitext self number σ
        = Ret (new, σ')
        ∧ σ' !! new = Some m' ∧ m' !! "NAME" = Some (VStr target))
    ∧ ∃ found rest, t = AAccess target found :: rest ∧
        match found, keepdb with
        | true, true => rest = [] ∧ ∃ σ', o = Done (tt, σ')
        | true, false =>
            (∃ r, fs_writes rest = [ARemove target None; ACopy src target r])
            ∨ (∃ e, fs_writes rest = [ARemove target (Some e)]
                    ∧ o = Raised (SystemExit 2))
        | false, _ => ∃ r, fs_writes rest = [ACopy src target r]
        end.
Proof.
  intros target. unfold _clone_test_db, bind in Hrun.
  rewrite (getitem_eq _ _ _ _ _ Hm Hname) in Hrun. simpl in Hrun.
  destruct (is_in_memory_db (VStr src)) eqn:Hmem.
  - unfold get_test_db_clone_settings, bind in Hrun.
    rewrite (getitem_eq _ _ _ _ _ Hm Hname) in Hrun. simpl in Hrun.
    rewrite Hmem in Hrun. simpl in Hrun.
    rewrite (getitem_eq _ _ _ _ _ Hm Hname) in Hrun. simpl in Hrun.
    by destruct Hrun.
  - destruct (clone_settings_copy self number σ m src Hm Hname Hmem)
      as [_ Hclone].
    cbv zeta in Hclone. fold target in Hclone.
    remember (fresh (dom σ)) as new eqn:Enew.
    remember (<[new := <["NAME" := VStr target]> m]> (<[new := m]> σ)) as σ' eqn:Eσ.
    assert (σ' !! new = Some (<["NAME" := VStr target]> m)) as Hnew
      by (subst σ'; apply lookup_insert_eq).
    assert (<["NAME" := VStr target]> m !! "NAME" = Some (VStr target)) as Hname'
      by apply lookup_insert_eq.
    split; [by eexists new, σ', _|].
    rewrite Hclone in Hrun. simpl in Hrun.
    rewrite (getitem_eq _ _ _ _ _ Hnew Hname') in Hrun.
    simpl in Hrun. destruct Hrun as (found & rest & -> & Hrun).
    exists found, rest. split; [done|].
    destruct found, keepdb; simpl in Hrun.
    + destruct Hrun as [-> ->]. eauto.
    + destruct (1 <=? verbosity); exec_inv Hrun; simpl; eauto.
    + exec_inv Hrun; simpl; eauto.
    + exec_inv Hrun; simpl; eauto.
Qed.

(** C4.  In [_create_test_db] and [_clone_test_db] a failed removal of the
    old database file is followed by exactly one more call, the error message
    on standard error, and the exit status 2; so is a failed copy in
    [_clone_test_db].  In [_create_test_db] an answer other than [yes] to the
    prompt is followed by exactly one more call, the line [Tests cancelled.],
    and the exit status 1. *)
Theorem failures_report_and_exit :
  (∀ (self : connection) (verbosity : Z) (autoclobber : bool) (σ : store)
     (t : list action) (o : outcome (value * store)),
      exec (_create_test_db self verbosity autoclobber σ) t o →
      (∀ pre path e post, t = (pre ++ ARemove path (Some e) :: post)%list →
         post = [AStderr ("Got an error deleting the old test database: " +:+ e +:+ LF)]
         ∧ o = Raised (SystemExit 2))
      ∧ (∀ pre prompt answer post,
           t = (pre ++ AInput prompt answer :: post)%list → answer ≠ "yes" →
           post = [APrint "Tests cancelled."] ∧ o = Raised (SystemExit 1)))
  ∧ (∀ (self : connection) (number verbosity : Z) (keepdb : bool) (σ : store)
       (t : list action) (o : outcome (unit * store)),
      exec (_clone_test_db is_in_memory_db os_path_splitext
              self number verbosity keepdb σ) t o →
      (∀ pre path e post, t = (pre ++ ARemove path (Some e) :: post)%list →
         post = [AStderr ("Got an error deleting the old test database: " +:+ e +:+ LF)]
         ∧ o = Raised (SystemExit 2))
      ∧ (∀ pre src dst e post, t = (pre ++ ACopy src dst (Some e) :: post)%list →
           post = [AStderr ("Got an error cloning the test database: " +:+ e +:+ LF)]
           ∧ o = Raised (SystemExit 2))).
Proof.
  split.
  - intros self verbosity autoclobber σ t o Hrun.
    unfold _create_test_db, _get_test_db_name, remove_or_exit, path_arg, getitem in Hrun.
    destruct autoclobber; exec_inv Hrun; split; intros; find_action; try done.
    all: match goal with
         | H : bool_decide _ = true |- _ =>
             apply bool_decide_eq_true in H; by simplify_eq
         end.
  - intros self number verbosity keepdb σ t o Hrun.
    unfold _clone_test_db, get_test_db_clone_settings, remove_or_exit,
      copy_or_exit, path_arg, dict_copy, setitem, getitem in Hrun.
    destruct keepdb; exec_inv Hrun; split; intros; find_action; try done.
Qed.

End Claims.
End CreationProofs.

(** * Properties of tests/runtests.py *)

Module RuntestsProofs.
Import Runtests.

#[local] Arguments nonzero : simpl never.

(** ** Lists *)

(* l[:-1] of a list that ends in y *)
Lemma take_all_but_last {A} (x : list A) (y : A) :
  take (length (x ++ [y]) - 1)%nat (x ++ [y])%list = x.
Proof.
  rewrite length_app. simpl.
  replace (length x + 1 - 1)%nat with (length x) by lia.
  by rewrite take_app_length.
Qed.

Lemma midpoint_bounds {A} (l : list A) :
  (1 < length l)%nat →
  (length (take (length l / 2) l) < length l)%nat
  ∧ (length (drop (length l / 2) l) < length l)%nat.
Proof.
  intros Hlen. rewrite length_take, length_drop.
  assert (1 <= length l / 2)%nat by (apply Nat.div_le_lower_bound; lia).
  assert (length l / 2 < length l)%nat by (apply Nat.div_lt; lia).
  lia.
Qed.

Section Script.
Variables RUNTESTS_DIR CONTRIB_DIR TEMP_DIR DJANGO_DIR : string.
Variables sys_executable script_file : string.
Variable os_path_join : string → string → string.
Variable os_path_basename : string → string.

(** ** The bisection loop *)

Lemma bind_ret {A B} (a : A) (f : A → M pystore B) σ : bind (ret a) f σ = f a σ.
Proof. done. Qed.

(** One pass of the loop on Python 2, for a list of more than one label. *)
Lemma bisect_loop_pass lbl args fuel (l : list string) it σ t o :
  (1 < length l)%nat →
  exec (bisect_loop Python2 lbl args (S fuel) l it σ) t o →
  let mid := (length l / 2)%nat in
  ∃ fa fb t1 t2,
    t = (t1 ++ t2)%list
    ∧ calls t1 = [ ((args ++ take mid l ++ [lbl])%list, fa);
                   ((args ++ drop mid l ++ [lbl])%list, fb) ]
    ∧ (if nonzero fa && negb (nonzero fb)
       then exec (bisect_loop Python2 lbl args fuel (take mid l) (it + 1)%nat σ) t2 o
       else if nonzero fb && negb (nonzero fa)
       then exec (bisect_loop Python2 lbl args fuel (drop mid l) (it + 1)%nat σ) t2 o
       else t2 = [] ∧ o = Done (Some l, σ)).
Proof.
  intros Hlen Hrun mid. simpl in Hrun.
  rewrite bool_decide_eq_true_2 in Hrun by done.
  rewrite bind_ret in Hrun.
  rewrite !take_all_but_last in Hrun. fold mid in Hrun.
  unfold print, call, bind in Hrun. simpl in Hrun.
  destruct Hrun as ([] & ? & -> & [] & ? & -> & fa & ? & -> & [] & ? & ->
                    & [] & ? & -> & [] & ? & -> & fb & ? & -> & Hrun).
  exists fa, fb.
  destruct (nonzero fa) eqn:Ha, (nonzero fb) eqn:Hb; simpl in *;
    destruct Hrun as ([] & t2 & -> & Hrun).
  - destruct Hrun as [-> ->]. by eexists [_; _; _; _; _; _; _; _], [].
  - by eexists [_; _; _; _; _; _; _; _], t2.
  - by eexists [_; _; _; _; _; _; _; _], t2.
  - destruct Hrun as [-> ->]. by eexists [_; _; _; _; _; _; _; _], [].
Qed.

Lemma calls_app (t1 t2 : list action) :
  calls (t1 ++ t2) = (calls t1 ++ calls t2)%list.
Proof. apply omap_app. Qed.

Lemma bisect_loop_short py lbl args fuel (l : list string) it σ :
  (length l ≤ 1)%nat → bisect_loop py lbl args fuel l it σ = Ret (Some l, σ).
Proof.
  intros Hlen. destruct fuel; simpl; by rewrite bool_decide_eq_false_2 by lia.
Qed.

(** On Python 3 the first pass ends at the slice of line 244. *)
Lemma bisect_loop_float lbl args fuel (l : list string) it σ :
  (1 < length l)%nat →
  bisect_loop Python3 lbl args (S fuel) l it σ
  = Raise (TypeError "slice indices must be integers or None or have an __index__ method").
Proof. intros Hlen. simpl. by rewrite bool_decide_eq_true_2 by done. Qed.

(** What the loop does on Python 2.  For a list of more than one label a
    pass cuts the list at its midpoint into two halves whose concatenation is
    the list, starts one sub-process per half with the bisection label
    appended, and, when exactly one half fails, goes on with that half, which
    is strictly shorter.  The loop therefore ends, and it ends with at most
    one label unless its last pass found failures in both halves or in
    neither; it then stops with the list of that pass. *)
Lemma bisect_loop_on_python2 (lbl : string) (args l : list string)
    (it : nat) (σ : pystore) :
  ((1 < length l)%nat →
   ∀ fuel t o, exec (bisect_loop Python2 lbl args (S fuel) l it σ) t o →
     let mid := (length l / 2)%nat in
     (take mid l ++ drop mid l)%list = l
     ∧ (length (take mid l) < length l)%nat
     ∧ (length (drop mid l) < length l)%nat
     ∧ ∃ fa fb t1 t2,
         t = (t1 ++ t2)%list
         ∧ calls t1 = [ ((args ++ take mid l ++ [lbl])%list, fa);
                        ((args ++ drop mid l ++ [lbl])%list, fb) ]
         ∧ (if nonzero fa && negb (nonzero fb)
            then exec (bisect_loop Python2 lbl args fuel (take mid l) (it + 1)%nat σ) t2 o
            else if nonzero fb && negb (nonzero fa)
            then exec (bisect_loop Python2 lbl args fuel (drop mid l) (it + 1)%nat σ) t2 o
            else t2 = [] ∧ o = Done (Some l, σ)))
  ∧ (∀ fuel t o, (length l ≤ fuel)%nat →
       exec (bisect_loop Python2 lbl args fuel l it σ) t o →
       ∃ l', o = Done (Some l', σ)
         ∧ (length l' ≤ length l)%nat
         ∧ ((length l' ≤ 1)%nat
            ∨ ∃ cs fa fb,
                calls t = (cs ++ [ ((args ++ take (length l' / 2) l' ++ [lbl])%list, fa);
                                   ((args ++ drop (length l' / 2) l' ++ [lbl])%list, fb) ])%list
                ∧ nonzero fa = nonzero fb)).
Proof.
  split.
  - intros Hlen fuel t o Hrun mid.
    destruct (midpoint_bounds l Hlen) as [Ha Hb].
    split_and!; [apply take_drop|done|done|].
    by apply bisect_loop_pass.
  - intros fuel. revert l it.
    induction fuel as [|fuel IH]; intros l it t o Hfuel Hrun.
    + rewrite bisect_loop_short in Hrun by lia. destruct Hrun as [-> ->].
      exists l. split_and!; [done|done|left; lia].
    + destruct (decide (1 < length l)%nat) as [Hlen|Hlen].
      * destruct (midpoint_bounds l Hlen) as [Ha Hb].
        apply bisect_loop_pass in Hrun as (fa & fb & t1 & t2 & -> & Hcalls & Hrun);
          [|done].
        rewrite calls_app, Hcalls.
        destruct (nonzero fa) eqn:Hfa, (nonzero fb) eqn:Hfb; cbn [andb negb] in Hrun.
        -- destruct Hrun as [-> ->]. exists l. split_and!; [done|done|right].
           exists [], fa, fb. rewrite Hfa, Hfb. by rewrite app_nil_r.
        -- apply IH in Hrun as (l' & -> & Hle & Hend); [|lia].
           exists l'. split_and!; [done|lia|].
           destruct Hend as [?|(cs & fa' & fb' & -> & ?)]; [by left|right].
           eexists (_ :: _ :: cs), fa', fb'. by split.
        -- apply IH in Hrun as (l' & -> & Hle & Hend); [|lia].
           exists l'. split_and!; [done|lia|].
           destruct Hend as [?|(cs & fa' & fb' & -> & ?)]; [by left|right].
           eexists (_ :: _ :: cs), fa', fb'. by split.
        -- destruct Hrun as [-> ->]. exists l. split_and!; [done|done|right].
           exists [], fa, fb. rewrite Hfa, Hfb. by rewrite app_nil_r.
      * rewrite bisect_loop_short in Hrun by lia. destruct Hrun as [-> ->].
        exists l. split_and!; [done|done|left; lia].
Qed.

(** ** Programs that only talk to the environment *)

Lemma harmless_ret {A} (a : A) : harmless (ret a : M pystore A).
Proof. intros σ t o [-> ->]. by exists a. Qed.

Lemma harmless_call {X} (e : event X) : harmless (call e : M pystore X).
Proof. intros σ t o (x & t' & -> & -> & ->). by exists x. Qed.

Lemma harmless_bind {A B} (m : M pystore A) (f : A → M pystore B) :
  harmless m → (∀ a, harmless (f a)) → harmless (bind m f).
Proof.
  intros Hm Hf σ t o Hrun.
  apply exec_bind in Hrun as [(a & σ1 & t1 & t2 & H1 & H2 & ->)|(e & H1 & ->)].
  - apply Hm in H1 as (a' & [= <- <-]). by apply Hf in H2.
  - by apply Hm in H1 as (a' & [=]).
Qed.

Lemma harmless_when b (m : M pystore unit) : harmless m → harmless (when b m).
Proof. destruct b; [done|]. intros _. apply harmless_ret. Qed.

Lemma exec_bind_harmless {A B} (m : M pystore A) (f : A → M pystore B) σ t o :
  harmless m → exec (bind m f σ) t o →
  ∃ a t1 t2, t = (t1 ++ t2)%list ∧ exec (m σ) t1 (Done (a, σ)) ∧ exec (f a σ) t2 o.
Proof.
  intros Hm Hrun.
  apply exec_bind in Hrun as [(a & σ1 & t1 & t2 & H1 & H2 & ->)|(e & H1 & ->)].
  - destruct (Hm _ _ _ H1) as (a' & [= <- <-]). by exists a, t1, t2.
  - by apply Hm in H1 as (a' & [=]).
Qed.

Lemma harmless_scan_dir modpath entries : harmless (scan_dir os_path_basename modpath entries).
Proof.
  induction entries as [|f rest IH]; simpl; [apply harmless_ret|].
  apply harmless_bind.
  - case_match; [apply harmless_ret|apply harmless_call].
  - intros skip. apply harmless_bind; [done|]. intros ms. apply harmless_ret.
Qed.

Lemma harmless_get_test_modules :
  harmless (get_test_modules RUNTESTS_DIR CONTRIB_DIR os_path_basename).
Proof.
  unfold get_test_modules.
  repeat (apply harmless_bind; [first [apply harmless_call|apply harmless_scan_dir]|intros ?]).
  apply harmless_ret.
Qed.

(** ** Loading the test applications *)

(** The loop of lines 141-165 leaves every attribute of the settings object
    as it is, and changes no list other than the one [INSTALLED_APPS] refers
    to. *)
Lemma load_test_modules_frame verbosity test_labels test_labels_set test_modules
    σ r0 t o :
  settings σ !! "INSTALLED_APPS" = Some (VList r0) →
  is_Some (lists σ !! r0) →
  exec (load_test_modules verbosity test_labels test_labels_set test_modules σ) t o →
  ∃ σ', o = Done (tt, σ')
        ∧ settings σ' = settings σ
        ∧ is_Some (lists σ' !! r0)
        ∧ ∀ r, r ≠ r0 → lists σ' !! r = lists σ !! r.
Proof.
  revert σ t. induction test_modules as [|[modpath module_name] rest IH];
    intros σ t Happs Hlist Hrun.
  - destruct Hrun as [-> ->]. by exists σ.
  - simpl in Hrun.
    apply exec_bind in Hrun as [(a & σ1 & t1 & t2 & H1 & H2 & ->)|(e & H1 & ->)].
    + assert (settings σ1 = settings σ ∧ is_Some (lists σ1 !! r0)
              ∧ ∀ r, r ≠ r0 → lists σ1 !! r = lists σ !! r) as (Hs & Hl & Hfr).
      { clear H2 IH. destruct Hlist as [items Hitems].
        case_match; [|destruct H1 as [_ ?]; by simplify_eq].
        unfold getattr, contains, append in H1. exec_inv H1; simplify_eq/=.
        all: split_and!;
          [ done
          | first [by rewrite lookup_insert_eq|by eexists]
          | intros r Hr; first [done|by rewrite lookup_insert_ne] ]. }
      apply IH in H2 as (σ' & -> & Hs' & Hl' & Hfr'); [|by rewrite Hs|done].
      exists σ'. split_and!; [done|congruence|done|].
      intros r Hr. rewrite Hfr' by done. by apply Hfr.
    + exfalso. destruct Hlist as [items Hitems].
      case_match; [|destruct H1 as [_ ?]; by simplify_eq].
      unfold getattr, contains, append in H1. exec_inv H1; simplify_eq/=.
Qed.

(** ** [setup] and [teardown] *)

Lemma bind_getattr {B} name v (f : value → M pystore B) σ :
  settings σ !! name = Some v → bind (getattr name) f σ = f v σ.
Proof. intros H. unfold bind, getattr. by rewrite H. Qed.

(** C3.  On a settings object that has the five attributes [setup] reads
    without a default, every run of [setup] returns a dictionary [state]
    whose six items are the values the settings had when [setup] was entered
    ([ROOT_URLCONF] defaults to the empty string), although [setup] has
    overwritten all six by the time it returns; [teardown] of that dictionary
    sets each of the six settings to the recorded item, which puts back what
    every setting that existed before held.  Values are compared as Python
    does a list: by the object.  No list object other than
    [ALWAYS_INSTALLED_APPS] changes in between. *)
Theorem setup_teardown_restores (verbosity : Z) (test_labels : list string)
    (parallel : Z) (σ : pystore) (t : list action) (o : outcome (state * pystore))
    (Happs : is_Some (settings σ !! "INSTALLED_APPS"))
    (Hdirs : is_Some (settings σ !! "TEMPLATE_DIRS"))
    (Hlang : is_Some (settings σ !! "LANGUAGE_CODE"))
    (Hurl : is_Some (settings σ !! "STATIC_URL"))
    (Hroot : is_Some (settings σ !! "STATIC_ROOT"))
    (Hlist : is_Some (lists σ !! ALWAYS_INSTALLED_APPS))
    (Hrun : exec (setup RUNTESTS_DIR CONTRIB_DIR TEMP_DIR DJANGO_DIR os_path_join
                    os_path_basename verbosity test_labels parallel σ) t o) :
  ∃ (st : state) (σ1 σ2 : pystore),
    o = Done (st, σ1)
    ∧ st.*1 = saved_settings
    ∧ (∀ k v, (k, v) ∈ st → v = default (VStr "") (settings σ !! k))
    ∧ settings σ1 !! "INSTALLED_APPS" = Some (VList ALWAYS_INSTALLED_APPS)
    ∧ settings σ1 !! "ROOT_URLCONF" = Some (VStr "urls")
    ∧ settings σ1 !! "TEMPLATE_DIRS"
      = Some (VTuple [VStr (os_path_join RUNTESTS_DIR TEST_TEMPLATE_DIR)])
    ∧ settings σ1 !! "LANGUAGE_CODE" = Some (VStr "en")
    ∧ settings σ1 !! "STATIC_URL" = Some (VStr "/static/")
    ∧ settings σ1 !! "STATIC_ROOT" = Some (VStr (os_path_join TEMP_DIR "static"))
    ∧ teardown st σ1 = Ret (tt, σ2)
    ∧ (∀ k v, (k, v) ∈ st → settings σ2 !! k = Some v)
    ∧ (∀ k, k ∈ saved_settings → is_Some (settings σ !! k) →
            settings σ2 !! k = settings σ !! k)
    ∧ (∀ r, r ≠ ALWAYS_INSTALLED_APPS → lists σ2 !! r = lists σ !! r).
Proof.
  destruct Happs as [v1 H1], Hdirs as [v3 H3], Hlang as [v4 H4],
    Hurl as [v5 H5], Hroot as [v6 H6].
  unfold setup in Hrun.
  rewrite (bind_getattr _ _ _ _ H1) in Hrun.
  unfold bind at 1, getattr_default in Hrun. cbn [prog_bind] in Hrun.
  rewrite (bind_getattr _ _ _ _ H3), (bind_getattr _ _ _ _ H4),
    (bind_getattr _ _ _ _ H5), (bind_getattr _ _ _ _ H6) in Hrun.
  set (v2 := default (VStr "") (settings σ !! "ROOT_URLCONF")) in *.
  do 7 (unfold bind at 1, setattr at 1 in Hrun; cbn [prog_bind] in Hrun).
  cbn [settings lists] in Hrun.
  match type of Hrun with
  | exec (bind _ _ ?s) _ _ => set (σa := s) in *
  end.
  assert (settings σa !! "INSTALLED_APPS" = Some (VList ALWAYS_INSTALLED_APPS))
    as Happs by (unfold σa; cbn [settings]; by simplify_map_eq).
  apply exec_bind_harmless in Hrun as (? & ? & ? & -> & _ & Hrun);
    [|apply harmless_when, harmless_call].
  apply exec_bind_harmless in Hrun as (? & ? & ? & -> & _ & Hrun);
    [|apply harmless_when, harmless_call].
  apply exec_bind_harmless in Hrun as (? & ? & ? & -> & _ & Hrun);
    [|apply harmless_call].
  apply exec_bind_harmless in Hrun as (mods & ? & ? & -> & _ & Hrun);
    [|apply harmless_get_test_modules].
  apply exec_bind in Hrun as [(a & σ1 & t1 & t2 & Hload & Hret & ->)|(e & Hload & ->)].
  - apply load_test_modules_frame with (r0 := ALWAYS_INSTALLED_APPS) in Hload
      as (σ' & [= <- <-] & Hs & _ & Hfr); [|done|done].
    destruct Hret as [-> ->].
    set (st := [("INSTALLED_APPS", v1); ("ROOT_URLCONF", v2);
                ("TEMPLATE_DIRS", v3); ("LANGUAGE_CODE", v4);
                ("STATIC_URL", v5); ("STATIC_ROOT", v6)]).
    exists st, σ1,
      {| settings :=
           <["STATIC_ROOT" := v6]> (<["STATIC_URL" := v5]>
           (<["LANGUAGE_CODE" := v4]> (<["TEMPLATE_DIRS" := v3]>
           (<["ROOT_URLCONF" := v2]> (<["INSTALLED_APPS" := v1]> (settings σ1))))));
         lists := lists σ1 |}.
    assert (∀ k v, (k, v) ∈ st →
                   (k = "INSTALLED_APPS" ∧ v = v1) ∨ (k = "ROOT_URLCONF" ∧ v = v2)
                   ∨ (k = "TEMPLATE_DIRS" ∧ v = v3) ∨ (k = "LANGUAGE_CODE" ∧ v = v4)
                   ∨ (k = "STATIC_URL" ∧ v = v5) ∨ (k = "STATIC_ROOT" ∧ v = v6)) as Hst.
    { intros k v Hin. unfold st in Hin.
      repeat (apply elem_of_cons in Hin as [[= -> ->]|Hin]; [tauto|]).
      by apply elem_of_nil in Hin. }
    assert (settings σ1
            = <["SITE_ID":=VInt 1]> (<["LANGUAGE_CODE":=VStr "en"]>
              (<["TEMPLATE_DIRS":=VTuple [VStr (os_path_join RUNTESTS_DIR TEST_TEMPLATE_DIR)]]>
              (<["STATIC_ROOT":=VStr (os_path_join TEMP_DIR "static")]>
              (<["STATIC_URL":=VStr "/static/"]> (<["ROOT_URLCONF":=VStr "urls"]>
              (<["INSTALLED_APPS":=VList ALWAYS_INSTALLED_APPS]> (settings σ)))))))) as Hs1
      by (by rewrite Hs).
    clear Hs Happs.
    split_and!.
    + done.
    + done.
    + intros k v Hin. apply Hst in Hin.
      destruct Hin as [[-> ->]|[[-> ->]|[[-> ->]|[[-> ->]|[[-> ->]|[-> ->]]]]]];
        first [done|by rewrite ?H1, ?H3, ?H4, ?H5, ?H6].
    + rewrite Hs1. by simplify_map_eq.
    + rewrite Hs1. by simplify_map_eq.
    + rewrite Hs1. by simplify_map_eq.
    + rewrite Hs1. by simplify_map_eq.
    + rewrite Hs1. by simplify_map_eq.
    + rewrite Hs1. by simplify_map_eq.
    + by destruct a.
    + intros k v Hin. apply Hst in Hin. cbn [settings].
      destruct Hin as [[-> ->]|[[-> ->]|[[-> ->]|[[-> ->]|[[-> ->]|[-> ->]]]]]];
        by simplify_map_eq.
    + intros k Hin [v Hv]. unfold saved_settings in Hin. cbn [settings].
      repeat (apply elem_of_cons in Hin as [->|Hin];
              [unfold v2; by simplify_map_eq|]).
      by apply elem_of_nil in Hin.
    + intros r Hr. cbn [lists]. by apply Hfr.
  - apply load_test_modules_frame with (r0 := ALWAYS_INSTALLED_APPS) in Hload
      as (σ' & [=] & _); done.
Qed.

(** ** Pair execution *)

Lemma nonzero_true z : nonzero z = true ↔ z ≠ 0.
Proof. unfold nonzero. destruct (Z.eqb_spec z 0); simpl; split; congruence. Qed.

Lemma nonzero_false z : nonzero z = false ↔ z = 0.
Proof. unfold nonzero. destruct (Z.eqb_spec z 0); simpl; split; congruence. Qed.

Lemma calls_print line t : calls (APrint line :: t) = calls t.
Proof. done. Qed.

Lemma exec_teardown (st : state) σ t o :
  exec (teardown st σ) t o → t = [] ∧ ∃ σ', o = Done (tt, σ').
Proof.
  revert σ. induction st as [|[key v] rest IH]; intros σ Hrun.
  - destruct Hrun as [-> ->]. eauto.
  - simpl in Hrun. unfold bind at 1, setattr in Hrun. cbn [prog_bind] in Hrun.
    by apply IH in Hrun.
Qed.

(** The scan of lines 299-305: the labels are tried in list order, one
    sub-process each, paired with [paired_test]; the scan stops at the first
    label whose run fails and prints it. *)
Lemma paired_loop_scan paired_test args total labels i σ t o :
  exec (paired_loop paired_test args total i labels σ) t o →
  (o = Done (false, σ)
   ∧ calls t = (λ l, ((args ++ [l; paired_test])%list, 0)) <$> labels)
  ∨ (∃ pre label post z,
        labels = (pre ++ label :: post)%list ∧ z ≠ 0 ∧ o = Done (true, σ)
        ∧ calls t = (((λ l, ((args ++ [l; paired_test])%list, 0)) <$> pre)
                     ++ [((args ++ [label; paired_test])%list, z)])%list
        ∧ last t = Some (APrint ("***** Found problem pair with " +:+ label))).
Proof.
  revert i t. induction labels as [|label rest IH]; intros i t Hrun.
  - destruct Hrun as [-> ->]. by left.
  - cbn [paired_loop] in Hrun. unfold print, call, bind in Hrun.
    cbn [prog_bind] in Hrun.
    destruct Hrun as ([] & ? & -> & z & ? & -> & Hrun).
    destruct (nonzero z) eqn:Hz; cbn [prog_bind] in Hrun.
    + destruct Hrun as ([] & ? & -> & -> & ->). right.
      exists [], label, rest, z. by apply nonzero_true in Hz.
    + apply nonzero_false in Hz as ->.
      apply IH in Hrun as [[-> Hc]|(pre & l & post & z & -> & Hz & -> & Hc & Hlast)].
      * left. split; [done|]. cbn. by rewrite <-Hc.
      * right. exists (label :: pre), l, post, z. split_and!; [done..| |].
        -- cbn. by rewrite <-Hc.
        -- destruct x0; [done|]. by rewrite !last_cons_cons.
Qed.

Lemma paired_tests_body_scan paired_test opts test_labels (st : state) σ t o :
  test_labels ≠ [] →
  exec (paired_tests_body sys_executable script_file paired_test opts
          test_labels st σ) t o →
  let remaining := drop_special paired_test test_labels in
  let args := subprocess_args sys_executable script_file opts in
  (calls t = (λ l, ((args ++ [l; paired_test])%list, 0)) <$> remaining
   ∧ last t = Some (APrint "***** No problem pair found"))
  ∨ (∃ pre label post z,
        remaining = (pre ++ label :: post)%list ∧ z ≠ 0
        ∧ calls t = (((λ l, ((args ++ [l; paired_test])%list, 0)) <$> pre)
                     ++ [((args ++ [label; paired_test])%list, z)])%list
        ∧ last t = Some (APrint ("***** Found problem pair with " +:+ label))).
Proof.
  intros Hne Hrun remaining args. unfold paired_tests_body in Hrun.
  destruct test_labels as [|l0 ls]; [done|].
  unfold bind at 1, ret at 1 in Hrun. cbn [prog_bind] in Hrun.
  unfold bind at 1, print at 1, call at 1 in Hrun. cbn [prog_bind] in Hrun.
  destruct Hrun as ([] & t' & -> & Hrun).
  fold remaining args in Hrun.
  apply exec_bind in Hrun as [(b & σ1 & t1 & t2 & Hloop & Hrest & ->)|(e & Hloop & ->)].
  - apply paired_loop_scan in Hloop
      as [[[= -> ->] Hc]|(pre & l & post & z & Hrem & Hz & [= -> ->] & Hc & Hlast)].
    + left. cbv beta iota in Hrest.
      unfold bind at 1, print, call in Hrest. cbn [prog_bind] in Hrest.
      destruct Hrest as ([] & t3 & -> & Hrest).
      apply exec_teardown in Hrest as [-> _].
      split.
      * cbn [observe]. rewrite calls_print, calls_app, Hc.
        cbn [app]. rewrite calls_print. apply app_nil_r.
      * cbn [observe app]. by rewrite app_comm_cons, last_snoc.
    + right. cbv beta iota in Hrest. destruct Hrest as [-> ->].
      exists pre, l, post, z.
      split_and!; [done|done| |].
      * rewrite app_nil_r. cbn [observe]. by rewrite calls_print.
      * rewrite app_nil_r. cbn [observe]. destruct t1; [done|].
        by rewrite last_cons_cons.
  - apply paired_loop_scan in Hloop as [[[=] _]|(? & ? & ? & ? & _ & _ & [=] & _)].
Qed.

(** C5 (where the code departs from the claim).  [paired_tests] begins by
    calling [setup] with two arguments, one fewer than [setup] takes, so every
    run of [paired_tests] ends in [TypeError] before any label is paired: no
    sub-process is started and nothing is printed.  The scan the claim
    describes is the one of [paired_tests_body_scan], which the call never
    reaches; [django_tests] passes all three arguments. *)
Theorem paired_tests_rejected (paired_test : string) (opts : options)
    (test_labels : list string) (σ : pystore) :
  ∀ t o,
    exec (paired_tests sys_executable script_file paired_test opts test_labels σ) t o
    ↔ t = [] ∧ o = Raised (TypeError "setup() takes exactly 3 arguments (2 given)").
Proof. done. Qed.

(** C1 (where the code departs from the claim).  [bisect_tests] never
    bisects.  Like [paired_tests] it begins by calling [setup] with two
    arguments, so on either interpreter every run ends in [TypeError] before
    anything is printed and before any sub-process is started: no pass of the
    loop is made.  On Python 3 the loop of lines 241-268 could not make a pass
    either: for more than one label [len(test_labels)/2] is a float, and the
    slice of line 244 raises [TypeError] before the first sub-process.  What
    the loop would do on Python 2 is [bisect_loop_on_python2]. *)
Theorem bisect_tests_rejected (py : python) (bisection_label : string)
    (opts : options) (test_labels : list string) (σ : pystore) :
  (∀ t o,
     exec (bisect_tests py sys_executable script_file bisection_label opts
             test_labels σ) t o
     ↔ t = [] ∧ o = Raised (TypeError "setup() takes exactly 3 arguments (2 given)"))
  ∧ (∀ args fuel it t o,
       (1 < length test_labels)%nat →
       exec (bisect_loop Python3 bisection_label args (S fuel) test_labels it σ) t o
       ↔ t = []
         ∧ o = Raised (TypeError "slice indices must be integers or None or have an __index__ method")).
Proof.
  split; [done|].
  intros args fuel it t o Hlen. by rewrite bisect_loop_float.
Qed.

End Script.
End RuntestsProofs.

(** * The theorems at work on the concrete environment *)

Module CreationChecks.
Import Creation CreationProofs.

Lemma get_test_db_name_cases_witness :
  _get_test_db_name Env.on_disk Env.databases
  = Ret (VStr "test.sqlite3", Env.databases)
  ∧ _get_test_db_name Env.in_memory Env.databases
    = Ret (VStr ":memory:", Env.databases).
Proof.
  split.
  - apply (get_test_db_name_cases Env.on_disk Env.databases Env.disk_settings eq_refl);
      [reflexivity|done|done].
  - apply (get_test_db_name_cases Env.in_memory Env.databases Env.memory_settings eq_refl)
      with (v := VNone); [reflexivity|by left].
Defined.

(** A settings dictionary without a [TEST_NAME] item: the name is not
    [':memory:'], the lookup fails. *)
Lemma get_test_db_name_absent_key :
  _get_test_db_name Env.bare Env.databases = Raise (KeyError "TEST_NAME")
  ∧ ¬ ∃ t σ', exec (_get_test_db_name Env.bare Env.databases) t
                   (Done (VStr ":memory:", σ')).
Proof.
  split; [reflexivity|].
  intros (t & σ' & H). by destruct H as [_ ?].
Qed.

Lemma test_db_signature_cases_witness :
  test_db_signature Env.on_disk Env.databases
  = Ret ([VStr "db.sqlite3"], Env.databases)
  ∧ test_db_signature Env.in_memory Env.databases
    = Ret ([VStr "db.sqlite3"; VStr "other"], Env.databases).
Proof.
  destruct (test_db_signature_cases Env.on_disk Env.in_memory Env.databases
              Env.disk_settings Env.memory_settings
              (VStr "db.sqlite3") (VStr "test.sqlite3") VNone
              eq_refl eq_refl eq_refl eq_refl eq_refl eq_refl)
    as (H1 & H2 & _); [done|].
  by split.
Defined.

(** One test database on disk, the other in memory: the signatures differ
    although the two test databases are not both in memory. *)
Lemma mixed_signatures_differ :
  ∃ sig1 sig2,
    test_db_signature Env.on_disk Env.databases = Ret (sig1, Env.databases)
    ∧ test_db_signature Env.in_memory Env.databases = Ret (sig2, Env.databases)
    ∧ Env.disk_settings !! "NAME" = Env.memory_settings !! "NAME"
    ∧ alias Env.on_disk ≠ alias Env.in_memory
    ∧ _get_test_db_name Env.on_disk Env.databases
      = Ret (VStr "test.sqlite3", Env.databases)
    ∧ ¬ (sig1 ≠ sig2 ↔
         _get_test_db_name Env.on_disk Env.databases
         = Ret (VStr ":memory:", Env.databases)
         ∧ _get_test_db_name Env.in_memory Env.databases
           = Ret (VStr ":memory:", Env.databases)).
Proof.
  exists [VStr "db.sqlite3"], [VStr "db.sqlite3"; VStr "other"].
  split_and!; [reflexivity|reflexivity|reflexivity|done|reflexivity|].
  intros [H _]. by destruct H as [[=] _].
Qed.

Lemma clone_settings_frame_witness :
  ∃ new σ' m',
    get_test_db_clone_settings Env.is_in_memory_db Env.splitext Env.on_disk 1
      Env.databases = Ret (new, σ')
    ∧ σ' !! new = Some m'
    ∧ m' !! "TEST_NAME" = Some (VStr "test.sqlite3")
    ∧ m' !! "NAME" = Some (VStr "db_1..sqlite3")
    ∧ σ' !! settings_dict Env.on_disk = Some Env.disk_settings.
Proof.
  destruct (clone_settings_frame Env.is_in_memory_db Env.splitext Env.on_disk 1
              Env.databases Env.disk_settings "db.sqlite3"
              eq_refl eq_refl eq_refl)
    as (new & σ' & m' & H1 & _ & H2 & H3 & H4 & H5 & _).
  exists new, σ', m'. split_and!; [done|done| |done|done].
  by rewrite H3.
Defined.

Lemma destroy_test_db_effects_witness :
  ∃ r, (run Env.respond
          (_destroy_test_db Env.on_disk (VStr "test.sqlite3") 1 Env.databases)
          Env.with_test_db).1.1
       = [ARemove "test.sqlite3" r].
Proof.
  destruct (destroy_test_db_effects Env.on_disk (VStr "test.sqlite3") 1
              Env.databases _ _
              (run_exec Env.respond _ Env.with_test_db)) as [H _].
  destruct (H "test.sqlite3") as (r & Hr & _); [reflexivity|done|done|].
  by exists r.
Defined.

Lemma clone_test_db_effects_witness :
  ∃ rest r,
    (run Env.respond
       (_clone_test_db Env.is_in_memory_db Env.splitext Env.on_disk 1 1 false
          Env.databases)
       Env.with_test_db).1.1
    = AAccess "db_1..sqlite3" true :: rest
    ∧ fs_writes rest
      = [ARemove "db_1..sqlite3" None; ACopy "db.sqlite3" "db_1..sqlite3" r].
Proof.
  assert ((run Env.respond
             (_clone_test_db Env.is_in_memory_db Env.splitext Env.on_disk 1 1
                false Env.databases) Env.with_test_db).1.1
          = [AAccess "db_1..sqlite3" true;
             APrint "Destroying old test database 'db_1..sqlite3'...";
             ARemove "db_1..sqlite3" None;
             ACopy "db.sqlite3" "db_1..sqlite3" None]) as Ht
    by (vm_compute; reflexivity).
  pose proof (clone_test_db_effects Env.is_in_memory_db Env.splitext Env.on_disk
                1 1 false Env.databases Env.disk_settings "db.sqlite3" _ _
                eq_refl eq_refl
                (run_exec Env.respond _ Env.with_test_db)) as H.
  cbv zeta in H.
  assert (Env.is_in_memory_db (VStr "db.sqlite3") = false) as E by reflexivity.
  rewrite E, Ht in H. destruct H as [_ (found & rest & Hcons & H)].
  injection Hcons as <- <-.
  destruct H as [[r Hr]|(e & He & _)]; [|discriminate He].
  eexists _, r. split; [exact Ht|exact Hr].
Defined.

Lemma failures_report_and_exit_witness :
  (run Env.respond (_create_test_db Env.on_disk 1 true Env.databases)
     Env.read_only).1.2 = Raised (SystemExit 2)
  ∧ (run Env.respond (_create_test_db Env.on_disk 1 false Env.databases)
       Env.with_test_db).1.2 = Raised (SystemExit 1)
  ∧ (run Env.respond
       (_clone_test_db Env.is_in_memory_db Env.splitext Env.on_disk 2 1 false
          Env.databases) Env.read_only).1.2 = Raised (SystemExit 2).
Proof.
  destruct (failures_report_and_exit Env.is_in_memory_db Env.splitext)
    as [Hcreate Hclone].
  split_and!.
  - destruct (Hcreate Env.on_disk 1 true Env.databases _ _
                (run_exec Env.respond _ Env.read_only)) as [H _].
    by destruct (H [APrint "Destroying old test database 'default'...";
                    AAccess "test.sqlite3" true]
                   "test.sqlite3" "cannot remove test.sqlite3"
                   [AStderr ("Got an error deleting the old test database: "
                             +:+ "cannot remove test.sqlite3" +:+ LF)] eq_refl).
  - destruct (Hcreate Env.on_disk 1 false Env.databases _ _
                (run_exec Env.respond _ Env.with_test_db)) as [_ H].
    by destruct (H [APrint "Destroying old test database 'default'...";
                    AAccess "test.sqlite3" true]
                   "Type 'yes' if you would like to try deleting the test database 'test.sqlite3', or 'no' to cancel: "
                   "no" [APrint "Tests cancelled."] eq_refl).
  - destruct (Hclone Env.on_disk 2 1 false Env.databases _ _
                (run_exec Env.respond _ Env.read_only)) as [_ H].
    by destruct (H [AAccess "db_2..sqlite3" false]
                   "db.sqlite3" "db_2..sqlite3" "cannot copy to db_2..sqlite3"
                   [AStderr ("Got an error cloning the test database: "
                             +:+ "cannot copy to db_2..sqlite3" +:+ LF)] eq_refl).
Defined.

End CreationChecks.

Module RuntestsChecks.
Import Runtests RuntestsProofs.

Lemma bisect_tests_rejected_witness :
  (run Env.respond
     (bisect_loop Python3 "b" ["python"] 4 ["w"; "x"; "y"; "z"] 1 Env.at_start)
     Env.y_fails).1.1 = []
  ∧ (run Env.respond
       (bisect_loop Python3 "b" ["python"] 4 ["w"; "x"; "y"; "z"] 1 Env.at_start)
       Env.y_fails).1.2
    = Raised (TypeError "slice indices must be integers or None or have an __index__ method").
Proof.
  destruct (bisect_tests_rejected "python" "runtests.py" Python3 "b" Env.opts
              ["w"; "x"; "y"; "z"] Env.at_start) as [_ H].
  pose proof (run_exec Env.respond
                (bisect_loop Python3 "b" ["python"] 4 ["w"; "x"; "y"; "z"] 1
                   Env.at_start) Env.y_fails) as Hrun.
  apply (H ["python"] 3%nat 1%nat) in Hrun; [exact Hrun|simpl; lia].
Defined.

(** [bisect_tests] on four labels of which [y] fails: on either interpreter
    the run ends in [TypeError] and starts no sub-process. *)
Lemma bisect_tests_starts_nothing (py : python) :
  run Env.respond
    (bisect_tests py "python" "runtests.py" "b" Env.opts ["w"; "x"; "y"; "z"]
       Env.at_start)
    Env.y_fails
  = ([], Raised (TypeError "setup() takes exactly 3 arguments (2 given)"), Env.y_fails).
Proof. reflexivity. Qed.

Lemma setup_teardown_restores_witness :
  ∃ st σ1 σ2,
    (run Env.respond
       (setup "/django/tests" "/django/django/contrib" "/tmp/django_0" "/django/django"
          Env.path_join (λ f, f) 1 [] 0 Env.at_start)
       Env.checkout).1.2 = Done (st, σ1)
    ∧ settings σ1 !! "LANGUAGE_CODE" = Some (VStr "en")
    ∧ teardown st σ1 = Ret (tt, σ2)
    ∧ settings σ2 !! "LANGUAGE_CODE" = Some (VStr "en-us")
    ∧ settings σ2 !! "INSTALLED_APPS" = Some (VTuple [])
    ∧ settings σ2 !! "ROOT_URLCONF" = Some (VStr "").
Proof.
  destruct (setup_teardown_restores
              "/django/tests" "/django/django/contrib" "/tmp/django_0" "/django/django"
              Env.path_join (λ f, f) 1 [] 0 Env.at_start _ _
              ltac:(eexists; reflexivity) ltac:(eexists; reflexivity)
              ltac:(eexists; reflexivity) ltac:(eexists; reflexivity)
              ltac:(eexists; reflexivity) ltac:(eexists; reflexivity)
              (run_exec Env.respond _ Env.checkout))
    as (st & σ1 & σ2 & Ho & Hkeys & Hrec & _ & _ & _ & Hlang & _ & _ & Htd & Hback & Hrt & _).
  exists st, σ1, σ2. split_and!; [done|done|done| | |].
  - rewrite Hrt; [reflexivity| |eexists; reflexivity].
    unfold saved_settings. rewrite !elem_of_cons. tauto.
  - rewrite Hrt; [reflexivity| |eexists; reflexivity].
    unfold saved_settings. rewrite !elem_of_cons. tauto.
  - apply Hback.
    assert (("ROOT_URLCONF", VStr "") ∈ zip st.*1 st.*2) as Hin.
    { rewrite Hkeys. destruct st as [|? [|[k v] ?]]; try done.
      injection Hkeys as _ Hk _. subst k. cbn.
      rewrite (Hrec "ROOT_URLCONF" v) by (rewrite !elem_of_cons; tauto).
      rewrite !elem_of_cons. right. by left. }
    by rewrite zip_fst_snd in Hin.
Defined.

(** [paired_tests] on one label: the run ends in [TypeError] and starts no
    sub-process. *)
Lemma paired_tests_starts_nothing :
  run Env.respond
    (paired_tests "python" "runtests.py" "basic" Env.opts ["queries"] Env.at_start)
    Env.y_fails
  = ([], Raised (TypeError "setup() takes exactly 3 arguments (2 given)"), Env.y_fails).
Proof. reflexivity. Qed.

End RuntestsChecks.

(** Membership in a list that is known item by item. *)
Ltac in_list := repeat first [apply list_elem_of_here | apply list_elem_of_further].
Ltac not_in_list H :=
  repeat (apply elem_of_cons in H as [H|H]; [discriminate H|]);
  by apply elem_of_nil in H.

(** * Further properties of django/db/backends/sqlite3/creation.py *)

Module CreationExtras.
Import Creation CreationProofs.

(** ** Strings *)

Lemma string_app_length (a b : string) :
  String.length (a +:+ b) = (String.length a + String.length b)%nat.
Proof. induction a as [|c a IH]; simpl; [done|by rewrite IH]. Qed.

Lemma string_app_inv_tail (a b s : string) : a +:+ s = b +:+ s → a = b.
Proof.
  revert b. induction a as [|c a IH]; intros [|d b] H.
  - done.
  - apply (f_equal String.length) in H.
    rewrite !string_app_length in H. simpl in H. lia.
  - apply (f_equal String.length) in H.
    rewrite !string_app_length in H. simpl in H. lia.
  - change (String c (a +:+ s) = String d (b +:+ s)) in H.
    injection H as -> H. f_equal. by apply IH.
Qed.

Section Extras.
Variable is_in_memory_db : value → bool.
Variable os_path_splitext : string → string * string.

(** ** [_create_test_db] *)

(** X1.  When the test database lives in memory [_create_test_db] does nothing at
    all, whatever the verbosity: no message, no question, no file-system
    call; it returns [':memory:']. *)
Theorem create_test_db_in_memory (self : connection) (verbosity : Z)
    (autoclobber : bool) (σ : store) (m : dict) (v : value)
    (Hm : σ !! settings_dict self = Some m)
    (Hv : m !! "TEST_NAME" = Some v)
    (Hmem : v = VNone ∨ v = VStr "" ∨ v = VStr ":memory:") :
  _create_test_db self verbosity autoclobber σ = Ret (VStr ":memory:", σ).
Proof.
  unfold _create_test_db, bind.
  rewrite (get_test_db_name_eq _ _ _ _ Hm Hv).
  apply file_based_false in Hmem. by rewrite Hmem.
Qed.

(** X2.  [_create_test_db] removes a file only with consent: in every run a call of
    [os.remove] comes after [os.access] has reported that very path present
    and, unless [autoclobber] is set, after the answer [yes]; it is the only
    call of the run that changes the file system.  A run that returns hands
    back the name [_get_test_db_name] gives and leaves the store as it was. *)
Theorem create_test_db_removes_with_consent (self : connection) (verbosity : Z)
    (autoclobber : bool) (σ : store) (t : list action)
    (o : outcome (value * store))
    (Hrun : exec (_create_test_db self verbosity autoclobber σ) t o) :
  (∀ pre path r post, t = (pre ++ ARemove path r :: post)%list →
     AAccess path true ∈ pre
     ∧ (autoclobber = true ∨ ∃ prompt, AInput prompt "yes" ∈ pre)
     ∧ fs_writes pre = [] ∧ fs_writes post = [])
  ∧ (∀ src dst r, ACopy src dst r ∉ t)
  ∧ (∀ v σ', o = Done (v, σ') →
       σ' = σ ∧ _get_test_db_name self σ = Ret (v, σ)).
Proof.
  assert (∀ e, _get_test_db_name self σ = Raise e →
               (∀ pre path r post, t = (pre ++ ARemove path r :: post)%list →
                  AAccess path true ∈ pre
                  ∧ (autoclobber = true ∨ ∃ prompt, AInput prompt "yes" ∈ pre)
                  ∧ fs_writes pre = [] ∧ fs_writes post = [])
               ∧ (∀ src dst r, ACopy src dst r ∉ t)
               ∧ (∀ v σ', o = Done (v, σ') →
                    σ' = σ ∧ _get_test_db_name self σ = Ret (v, σ))) as Hraise.
  { intros e He. unfold _create_test_db, bind at 1 in Hrun. rewrite He in Hrun.
    destruct Hrun as [-> ->]. split_and!; [|intros ? ? ? Hin; not_in_list Hin|done].
    intros pre ? ? ? H. by destruct pre. }
  destruct (σ !! settings_dict self) as [m|] eqn:Hm;
    [|apply (Hraise NoObject); unfold _get_test_db_name, bind, getitem;
      by rewrite Hm].
  destruct (m !! "TEST_NAME") as [v|] eqn:Hv;
    [|apply (Hraise (KeyError "TEST_NAME")); unfold _get_test_db_name, bind, getitem;
      by rewrite Hm, Hv].
  clear Hraise. pose proof (get_test_db_name_eq _ _ _ _ Hm Hv) as Hname.
  unfold _create_test_db, bind at 1 in Hrun. rewrite Hname in Hrun.
  rewrite Hname. cbn [prog_bind] in Hrun.
  destruct (file_based v) eqn:Hf.
  - apply file_based_str in Hf as (s & -> & Hs1 & Hs2).
    apply ne_str_str in Hs2. rewrite Hs2 in Hrun.
    unfold remove_or_exit, path_arg in Hrun.
    destruct autoclobber; exec_inv Hrun.
    all: split_and!;
      [ intros; find_action; try done
      | intros ? ? ? Hin; not_in_list Hin
      | intros; by simplify_eq ].
    all: try match goal with
         | H : bool_decide _ = true |- _ => apply bool_decide_eq_true in H; simplify_eq
         end.
    all: split_and!;
      [ in_list | first [by left|right; eexists; in_list] | done | done ].
  - simpl in Hrun. destruct Hrun as [-> ->].
    split_and!; [|intros ? ? ? Hin; not_in_list Hin|].
    + intros pre ? ? ? H. by destruct pre.
    + intros ? ? [= <- <-]. done.
Qed.

(** X3.  [_create_test_db] asks at most one question, and only when
    [autoclobber] is off and [os.access] has just found the test database
    file: the call before the question is [os.access] of the name
    [_get_test_db_name] gives, answered [True], and the question names that
    file. *)
Theorem create_test_db_asks_once (self : connection) (verbosity : Z)
    (autoclobber : bool) (σ : store) (t : list action)
    (o : outcome (value * store))
    (Hrun : exec (_create_test_db self verbosity autoclobber σ) t o) :
  ∀ pre prompt answer post, t = (pre ++ AInput prompt answer :: post)%list →
    autoclobber = false
    ∧ (∃ name,
         _get_test_db_name self σ = Ret (VStr name, σ)
         ∧ last pre = Some (AAccess name true)
         ∧ prompt = "Type 'yes' if you would like to try deleting the test database '"
                    +:+ name +:+ "', or 'no' to cancel: ")
    ∧ (∀ p a, AInput p a ∉ pre) ∧ (∀ p a, AInput p a ∉ post).
Proof.
  assert (t = [] → ∀ pre prompt answer post,
            t = (pre ++ AInput prompt answer :: post)%list →
            autoclobber = false
            ∧ (∃ name,
                 _get_test_db_name self σ = Ret (VStr name, σ)
                 ∧ last pre = Some (AAccess name true)
                 ∧ prompt = "Type 'yes' if you would like to try deleting the test database '"
                            +:+ name +:+ "', or 'no' to cancel: ")
            ∧ (∀ p a, AInput p a ∉ pre) ∧ (∀ p a, AInput p a ∉ post)) as Hnil.
  { intros -> pre ? ? ? H. by destruct pre. }
  destruct (σ !! settings_dict self) as [m|] eqn:Hm.
  2: { apply Hnil.
       unfold _create_test_db, _get_test_db_name, bind, getitem in Hrun.
       rewrite Hm in Hrun. by destruct Hrun as [-> _]. }
  destruct (m !! "TEST_NAME") as [v|] eqn:Hv.
  2: { apply Hnil.
       unfold _create_test_db, _get_test_db_name, bind, getitem in Hrun.
       rewrite Hm, Hv in Hrun. by destruct Hrun as [-> _]. }
  pose proof (get_test_db_name_eq _ _ _ _ Hm Hv) as Hname.
  unfold _create_test_db, bind at 1 in Hrun. rewrite Hname in Hrun.
  cbn [prog_bind] in Hrun.
  destruct (file_based v) eqn:Hf.
  - apply file_based_str in Hf as (s & -> & Hs1 & Hs2).
    apply ne_str_str in Hs2. rewrite Hs2 in Hrun.
    unfold remove_or_exit, path_arg in Hrun. clear Hnil.
    destruct autoclobber; exec_inv Hrun; intros; find_action; try done.
    all: split_and!;
      [ done | exists s; by split_and!
      | intros ? ? Hin; not_in_list Hin | intros ? ? Hin; not_in_list Hin ].
  - apply Hnil. simpl in Hrun. by destruct Hrun as [-> _].
Qed.

(** ** [get_test_db_clone_settings] *)

(** X4.  For an in-memory source the result is the connection's own dictionary
    object, not a copy: writing [NAME] through the result changes the
    connection's [NAME].  For a file-based source the same write leaves the
    connection's [NAME] as it was. *)
Theorem clone_settings_alias_only_in_memory (self : connection) (number : Z)
    (σ : store) (m : dict) (src : string) (v : value)
    (Hm : σ !! settings_dict self = Some m)
    (Hname : m !! "NAME" = Some (VStr src)) :
  ∃ σ',
    (d <- get_test_db_clone_settings is_in_memory_db os_path_splitext self number;;
     setitem d "NAME" v;;
     getitem (settings_dict self) "NAME") σ
    = Ret (if is_in_memory_db (VStr src) then v else VStr src, σ')
    ∧ (is_in_memory_db (VStr src) = true →
       get_test_db_clone_settings is_in_memory_db os_path_splitext self number σ
       = Ret (settings_dict self, σ)).
Proof.
  destruct (is_in_memory_db (VStr src)) eqn:Hmem.
  - assert (get_test_db_clone_settings is_in_memory_db os_path_splitext self number σ
            = Ret (settings_dict self, σ)) as Heq.
    { unfold get_test_db_clone_settings, bind.
      rewrite (getitem_eq _ _ _ _ _ Hm Hname). simpl. by rewrite Hmem. }
    eexists. split; [|done].
    unfold bind at 1. rewrite Heq. cbn [prog_bind].
    unfold bind, setitem. rewrite Hm. cbn [prog_bind].
    erewrite getitem_eq; [done|apply lookup_insert_eq|apply lookup_insert_eq].
  - destruct (clone_settings_copy is_in_memory_db os_path_splitext
                self number σ m src Hm Hname Hmem) as [Hnew Heq].
    eexists. split; [|done].
    unfold bind at 1. rewrite Heq. cbn [prog_bind].
    unfold bind, setitem. rewrite lookup_insert_eq. cbn [prog_bind].
    erewrite getitem_eq; [done| |exact Hname].
    by rewrite !lookup_insert_ne.
Qed.

(** X5.  Missing keys.  [get_test_db_clone_settings] and [_clone_test_db] raise
    [KeyError('NAME')] on a dictionary without [NAME], before any call;
    [test_db_signature] raises [KeyError('TEST_NAME')] whenever [TEST_NAME] is
    missing, and [KeyError('NAME')] when only [NAME] is. *)
Theorem missing_keys_raise (self : connection) (number verbosity : Z)
    (keepdb : bool) (σ : store) (m : dict)
    (Hm : σ !! settings_dict self = Some m) :
  (m !! "NAME" = None →
   get_test_db_clone_settings is_in_memory_db os_path_splitext self number σ
   = Raise (KeyError "NAME")
   ∧ _clone_test_db is_in_memory_db os_path_splitext self number verbosity keepdb σ
     = Raise (KeyError "NAME"))
  ∧ (m !! "TEST_NAME" = None →
     test_db_signature self σ = Raise (KeyError "TEST_NAME"))
  ∧ (is_Some (m !! "TEST_NAME") → m !! "NAME" = None →
     test_db_signature self σ = Raise (KeyError "NAME")).
Proof.
  split_and!.
  - intros Hn. split.
    + unfold get_test_db_clone_settings, bind.
      by rewrite (getitem_missing _ _ _ _ Hm Hn).
    + unfold _clone_test_db, bind.
      by rewrite (getitem_missing _ _ _ _ Hm Hn).
  - intros Ht. unfold test_db_signature, _get_test_db_name, bind.
    by rewrite (getitem_missing _ _ _ _ Hm Ht).
  - intros [v Hv] Hn. unfold test_db_signature, bind.
    rewrite (get_test_db_name_eq _ _ _ _ Hm Hv). cbn [prog_bind].
    by rewrite (getitem_missing _ _ _ _ Hm Hn).
Qed.

(** X6.  Clones of one database get different file names for different numbers. *)
Theorem clone_name_inj (name : string) (n1 n2 : Z) :
  n1 ≠ n2 →
  clone_name os_path_splitext name n1 ≠ clone_name os_path_splitext name n2.
Proof.
  intros Hne H. apply Hne. unfold clone_name in H.
  destruct (os_path_splitext name) as [root ext].
  apply (inj (String.append root)) in H.
  apply (inj (String.append "_")) in H.
  apply string_app_inv_tail in H. by apply (inj pretty) in H.
Qed.

(** ** [_clone_test_db] and the store *)

(** X7.  A run of [_clone_test_db] that returns has changed no dictionary that
    existed before: the connection's settings are never edited in place. *)
Theorem clone_test_db_keeps_dicts (self : connection) (number verbosity : Z)
    (keepdb : bool) (σ σ' : store) (t : list action)
    (Hrun : exec (_clone_test_db is_in_memory_db os_path_splitext
                    self number verbosity keepdb σ) t (Done (tt, σ'))) :
  ∀ l d, σ !! l = Some d → σ' !! l = Some d.
Proof.
  intros l d Hl.
  assert (l ≠ fresh (dom σ)) as Hfresh.
  { intros ->. apply (is_fresh (dom σ)). apply elem_of_dom. by rewrite Hl. }
  unfold _clone_test_db, get_test_db_clone_settings, remove_or_exit,
    copy_or_exit, path_arg, dict_copy, setitem, getitem in Hrun.
  destruct keepdb; exec_inv Hrun; try done.
  all: by rewrite !lookup_insert_ne.
Qed.

End Extras.
End CreationExtras.

(** * Further properties of tests/runtests.py *)

Module RuntestsExtras.
Import Runtests RuntestsProofs.

#[local] Arguments nonzero : simpl never.

(** ** Removing the special labels *)

Lemma list_remove_sublist x l : sublist (list_remove x l) l.
Proof.
  induction l as [|y l IH]; simpl; [done|].
  destruct (String.eqb y x); [by apply sublist_cons|by apply sublist_skip].
Qed.

Lemma list_remove_absent x l : x ∉ l → list_remove x l = l.
Proof.
  induction l as [|y l IH]; simpl; [done|]. intros Hx.
  apply not_elem_of_cons in Hx as [Hne Hx].
  destruct (String.eqb_spec y x); [congruence|]. by rewrite IH.
Qed.

Lemma list_remove_other x y l : y ≠ x → y ∈ list_remove x l ↔ y ∈ l.
Proof.
  intros Hne. induction l as [|z l IH]; simpl; [done|].
  destruct (String.eqb_spec z x) as [->|Hz].
  - rewrite elem_of_cons. split; [by right|]. by intros [?|?].
  - rewrite !elem_of_cons, IH. done.
Qed.

Lemma list_remove_NoDup x l :
  NoDup l → (x ∉ list_remove x l) ∧ NoDup (list_remove x l).
Proof.
  induction 1 as [|y l Hy Hl IH]; simpl; [split; [apply not_elem_of_nil|constructor]|].
  destruct (String.eqb_spec y x) as [->|Hne]; [done|].
  destruct IH as [IH1 IH2]. split.
  - apply not_elem_of_cons. split; [congruence|done].
  - constructor; [|done]. intros Hin. apply Hy.
    eapply elem_of_sublist; [done|apply list_remove_sublist].
Qed.

(** X8.  What the two [remove] calls of [bisect_tests] and [paired_tests] leave:
    the other labels in their order; among distinct labels neither the given
    label nor [model_inheritance_same_model_name] is left, but of a label
    listed twice one copy stays. *)
Theorem drop_special_keeps_the_rest (label : string) (l : list string) :
  sublist (drop_special label l) l
  ∧ (∀ x, x ≠ label → x ≠ "model_inheritance_same_model_name" →
          x ∈ drop_special label l ↔ x ∈ l)
  ∧ (NoDup l → (label ∉ drop_special label l)
               ∧ ("model_inheritance_same_model_name" ∉ drop_special label l))
  ∧ (label ≠ "model_inheritance_same_model_name" →
     label ∈ drop_special label (label :: label :: l)).
Proof.
  unfold drop_special. split_and!.
  - etrans; apply list_remove_sublist.
  - intros x H1 H2. by rewrite !list_remove_other.
  - intros Hnd. destruct (list_remove_NoDup label l Hnd) as [H1 H2].
    split; [|by apply list_remove_NoDup].
    intros Hin. apply H1.
    eapply elem_of_sublist; [done|apply list_remove_sublist].
  - intros Hne. simpl. rewrite String.eqb_refl. simpl.
    destruct (String.eqb_spec label "model_inheritance_same_model_name"); [done|].
    apply list_elem_of_here.
Qed.

(** ** The bisection loop *)

Lemma calls_elem_app (t1 t2 : list action) c :
  c ∈ calls t1 ∨ c ∈ calls t2 → c ∈ calls (t1 ++ t2).
Proof. rewrite calls_app, elem_of_app. done. Qed.

(** X9.  The labels the loop ends with are a run of consecutive labels of the
    list it started with, on either interpreter. *)
Theorem bisect_loop_keeps_a_segment (py : python) (lbl : string)
    (args : list string) (fuel : nat) (l l' : list string) (it : nat)
    (σ σ' : pystore) (t : list action)
    (Hrun : exec (bisect_loop py lbl args fuel l it σ) t (Done (Some l', σ'))) :
  ∃ pre post, l = (pre ++ l' ++ post)%list.
Proof.
  destruct py.
  2: { destruct (decide (1 < length l)%nat) as [Hlen|Hlen].
       - destruct fuel as [|fuel].
         + simpl in Hrun. rewrite bool_decide_eq_true_2 in Hrun by done.
           by destruct Hrun as [_ [=]].
         + rewrite bisect_loop_float in Hrun by done. by destruct Hrun as [_ [=]].
       - rewrite bisect_loop_short in Hrun by lia. destruct Hrun as [_ [=]]; subst.
         exists [], []. by rewrite app_nil_r. }
  revert l it t Hrun. induction fuel as [|fuel IH]; intros l it t Hrun.
  - simpl in Hrun. case_bool_decide; destruct Hrun as [_ [=]]; subst.
    exists [], []. by rewrite app_nil_r.
  - destruct (decide (1 < length l)%nat) as [Hlen|Hlen].
    + apply bisect_loop_pass in Hrun as (fa & fb & t1 & t2 & -> & _ & Hrun); [|done].
      destruct (nonzero fa && negb (nonzero fb)).
      { apply IH in Hrun as (pre & post & Heq).
        exists pre, (post ++ drop (length l / 2) l)%list.
        rewrite <-(take_drop (length l / 2) l) at 1. rewrite Heq.
        by rewrite <-!app_assoc. }
      destruct (nonzero fb && negb (nonzero fa)).
      { apply IH in Hrun as (pre & post & Heq).
        exists (take (length l / 2) l ++ pre)%list, post.
        rewrite <-(take_drop (length l / 2) l) at 1. rewrite Heq.
        by rewrite <-!app_assoc. }
      destruct Hrun as [_ [=]]; subst. exists [], []. by rewrite app_nil_r.
    + rewrite bisect_loop_short in Hrun by lia. destruct Hrun as [_ [=]]; subst.
      exists [], []. by rewrite app_nil_r.
Qed.

(** X10.  On Python 2 bisection finds the culprit.  Take distinct labels, one
    of which, [c], makes a sub-process fail exactly when it is among the
    labels on its command line.  Then every run of the loop that is given at
    least [len(test_labels)] unfoldings ends with [c] as the only label left.
    On Python 3 it does not: when there are two labels or more, every run
    ends in [TypeError] at the slice of line 244 and starts no sub-process. *)
Theorem bisect_loop_finds_the_culprit (py : python) (lbl c : string)
    (args l : list string) (fuel it : nat) (σ : pystore) (t : list action)
    (o : outcome (option (list string) * pystore))
    (Hnodup : NoDup l) (Hc : c ∈ l) (Hargs : c ∉ args) (Hlbl : c ≠ lbl)
    (Hfuel : (length l ≤ fuel)%nat)
    (Hrun : exec (bisect_loop py lbl args fuel l it σ) t o)
    (Hfail : ∀ a z, (a, z) ∈ calls t → nonzero z = true ↔ c ∈ a) :
  (py = Python2 → o = Done (Some [c], σ))
  ∧ (py = Python3 →
     if bool_decide (1 < length l)%nat
     then t = []
          ∧ o = Raised (TypeError "slice indices must be integers or None or have an __index__ method")
     else o = Done (Some [c], σ)).
Proof.
  split; intros ->.
  2: { case_bool_decide as Hlen.
       - destruct fuel as [|fuel]; [lia|].
         rewrite bisect_loop_float in Hrun by done. exact Hrun.
       - rewrite bisect_loop_short in Hrun by lia. destruct Hrun as [-> ->].
         destruct l as [|x [|? ?]];
           [by apply elem_of_nil in Hc| |simpl in Hlen; lia].
         by apply list_elem_of_singleton in Hc as ->. }
  revert l it t Hnodup Hc Hfuel Hrun Hfail.
  induction fuel as [|fuel IH]; intros l it t Hnodup Hc Hfuel Hrun Hfail.
  - destruct l; [by apply elem_of_nil in Hc|simpl in Hfuel; lia].
  - destruct (decide (1 < length l)%nat) as [Hlen|Hlen].
    + destruct (midpoint_bounds l Hlen) as [Ha Hb].
      apply bisect_loop_pass in Hrun as (fa & fb & t1 & t2 & -> & Hcalls & Hrun);
        [|done].
      set (mid := (length l / 2)%nat) in *.
      assert (nonzero fa = true ↔ c ∈ take mid l) as Hfa.
      { rewrite (Hfail (args ++ take mid l ++ [lbl])%list fa).
        - rewrite !elem_of_app, list_elem_of_singleton. tauto.
        - apply calls_elem_app. left. rewrite Hcalls. apply list_elem_of_here. }
      assert (nonzero fb = true ↔ c ∈ drop mid l) as Hfb.
      { rewrite (Hfail (args ++ drop mid l ++ [lbl])%list fb).
        - rewrite !elem_of_app, list_elem_of_singleton. tauto.
        - apply calls_elem_app. left. rewrite Hcalls.
          apply list_elem_of_further, list_elem_of_here. }
      rewrite <-(take_drop mid l) in Hnodup, Hc.
      apply NoDup_app in Hnodup as (Hnd1 & Hdisj & Hnd2).
      apply elem_of_app in Hc as [Hin|Hin].
      * assert (nonzero fa = true) as Ea by by apply Hfa.
        assert (nonzero fb = false) as Eb.
        { destruct (nonzero fb); [|done]. exfalso.
          apply (Hdisj c Hin). by apply Hfb. }
        rewrite Ea, Eb in Hrun. cbn [andb negb] in Hrun.
        apply IH in Hrun; [done|done|done|lia|].
        intros a z Hin'. apply Hfail, calls_elem_app. by right.
      * assert (nonzero fb = true) as Eb by by apply Hfb.
        assert (nonzero fa = false) as Ea.
        { destruct (nonzero fa); [|done]. exfalso.
          eapply Hdisj; [|exact Hin]. by apply Hfa. }
        rewrite Ea, Eb in Hrun. cbn [andb negb] in Hrun.
        apply IH in Hrun; [done|done|done|lia|].
        intros a z Hin'. apply Hfail, calls_elem_app. by right.
    + rewrite bisect_loop_short in Hrun by lia. destruct Hrun as [-> ->].
      destruct l as [|x [|? ?]]; [by apply elem_of_nil in Hc| |simpl in Hlen; lia].
      by apply list_elem_of_singleton in Hc as ->.
Qed.

Lemma log2_up_half (n m : nat) :
  (1 < n)%nat → (m ≤ n - n / 2)%nat → (Nat.log2_up m + 1 ≤ Nat.log2_up n)%nat.
Proof.
  intros Hn Hm.
  assert (0 < Nat.log2_up n)%nat as Hpos by (apply Nat.log2_up_pos; lia).
  destruct (Nat.log2_up n) as [|k] eqn:Hk; [lia|].
  assert (n ≤ 2 ^ S k)%nat as Hle by (rewrite <-Hk; apply Nat.log2_up_spec; lia).
  rewrite Nat.pow_succ_r' in Hle.
  destruct (decide (m = 0)%nat) as [->|Hm0]; [simpl; lia|].
  assert (Nat.log2_up m ≤ k)%nat; [|lia].
  apply Nat.log2_up_le_pow2; [lia|].
  assert (n - n / 2 ≤ 2 ^ k)%nat; [|lia].
  pose proof (Nat.div_mod_eq n 2). pose proof (Nat.mod_upper_bound n 2). lia.
Qed.

(** X11.  The loop starts at most [2 * ceil(log2 n)] sub-processes for [n]
    labels, on either interpreter. *)
Theorem bisect_loop_call_bound (py : python) (lbl : string) (args l : list string)
    (fuel it : nat) (σ : pystore) (t : list action)
    (o : outcome (option (list string) * pystore))
    (Hrun : exec (bisect_loop py lbl args fuel l it σ) t o) :
  (length (calls t) ≤ 2 * Nat.log2_up (length l))%nat.
Proof.
  destruct py.
  2: { destruct (decide (1 < length l)%nat) as [Hlen|Hlen].
       - destruct fuel as [|fuel].
         + simpl in Hrun. rewrite bool_decide_eq_true_2 in Hrun by done.
           destruct Hrun as [-> _]. simpl. lia.
         + rewrite bisect_loop_float in Hrun by done.
           destruct Hrun as [-> _]. simpl. lia.
       - rewrite bisect_loop_short in Hrun by lia.
         destruct Hrun as [-> _]. simpl. lia. }
  revert l it t Hrun. induction fuel as [|fuel IH]; intros l it t Hrun.
  - simpl in Hrun. case_bool_decide; destruct Hrun as [-> _]; simpl; lia.
  - destruct (decide (1 < length l)%nat) as [Hlen|Hlen].
    + apply bisect_loop_pass in Hrun as (fa & fb & t1 & t2 & -> & Hcalls & Hrun);
        [|done].
      rewrite calls_app, length_app, Hcalls. cbn [length].
      assert (length (calls t2) + 2 ≤ 2 * Nat.log2_up (length l))%nat; [|lia].
      destruct (nonzero fa && negb (nonzero fb)).
      { apply IH in Hrun.
        pose proof (log2_up_half (length l) (length (take (length l / 2) l)) Hlen) as H.
        rewrite length_take in H.
        assert (Nat.min (length l / 2) (length l) ≤ length l - length l / 2)%nat as Hhalf.
        { pose proof (Nat.div_mod_eq (length l) 2).
          pose proof (Nat.mod_upper_bound (length l) 2). lia. }
        specialize (H Hhalf). rewrite length_take in Hrun. lia. }
      destruct (nonzero fb && negb (nonzero fa)).
      { apply IH in Hrun.
        pose proof (log2_up_half (length l) (length (drop (length l / 2) l)) Hlen) as H.
        rewrite length_drop in H. specialize (H (Nat.le_refl _)).
        rewrite length_drop in Hrun. lia. }
      destruct Hrun as [-> _]. simpl.
      assert (0 < Nat.log2_up (length l))%nat by (apply Nat.log2_up_pos; lia). lia.
    + rewrite bisect_loop_short in Hrun by lia. destruct Hrun as [-> _]. simpl. lia.
Qed.

(** ** [teardown] *)

Lemma teardown_eq (st : state) σ :
  teardown st σ
  = Ret (tt, {| settings := list_to_map (reverse st) ∪ settings σ;
                lists := lists σ |}).
Proof.
  revert σ. induction st as [|[k v] st IH]; intros σ.
  - simpl. rewrite (left_id_L ∅ (∪)). by destruct σ.
  - simpl. unfold bind at 1, setattr. cbn [prog_bind]. rewrite IH.
    cbn [settings lists]. do 3 f_equal.
    rewrite reverse_cons, list_to_map_app. simpl.
    rewrite <-(assoc_L (∪)). f_equal.
    by rewrite insert_empty, <-insert_union_singleton_l.
Qed.

(** X12.  [teardown] writes the items of [state] into the settings object and does
    nothing else: other attributes and all lists stay, each key of [state]
    (with distinct keys) reads back its item, and a second [teardown] of the
    same [state] changes nothing. *)
Theorem teardown_sets_state_only (st : state) (σ : pystore) :
  ∃ σ', teardown st σ = Ret (tt, σ')
        ∧ lists σ' = lists σ
        ∧ (∀ k, k ∉ st.*1 → settings σ' !! k = settings σ !! k)
        ∧ (NoDup st.*1 → ∀ k v, (k, v) ∈ st → settings σ' !! k = Some v)
        ∧ teardown st σ' = Ret (tt, σ').
Proof.
  eexists. split; [apply teardown_eq|]. cbn [settings lists]. split_and!.
  - done.
  - intros k Hk. apply lookup_union_r, not_elem_of_list_to_map_1.
    by rewrite fmap_reverse, elem_of_reverse.
  - intros Hnd k v Hin. apply lookup_union_Some_l, elem_of_list_to_map_1.
    + by rewrite fmap_reverse, reverse_Permutation.
    + by apply elem_of_reverse.
  - rewrite teardown_eq. cbn [settings lists].
    by rewrite (assoc_L (∪)), (idemp_L (∪)).
Qed.

Section Script.
Variables RUNTESTS_DIR CONTRIB_DIR TEMP_DIR DJANGO_DIR : string.
Variables sys_executable script_file : string.
Variable os_path_join : string → string → string.
Variable os_path_basename : string → string.

(** ** Whether the settings are restored *)

Lemma harmless_labels (test_labels : list string) :
  harmless (match test_labels with
            | [] => get_installed
            | _ => ret test_labels
            end : M pystore (list string)).
Proof.
  destruct test_labels; [|apply harmless_ret].
  apply harmless_bind; [apply harmless_call|intros ?; apply harmless_ret].
Qed.




(** X14.  [paired_tests] restores the settings only when it finds no problem pair:
    a run of its body that finds one returns by line 305, before
    [teardown(state)], with the store as it was. *)
Theorem paired_tests_body_skips_teardown (paired_test : string) (opts : options)
    (test_labels : list string) (st : state) (σ : pystore) (t : list action)
    (o : outcome (unit * pystore))
    (Hrun : exec (paired_tests_body sys_executable script_file paired_test
                    opts test_labels st σ) t o) :
  (last t = Some (APrint "***** No problem pair found")
   ∧ ∃ σ', o = Done (tt, σ') ∧ teardown st σ = Ret (tt, σ'))
  ∨ (∃ label, last t = Some (APrint ("***** Found problem pair with " +:+ label))
              ∧ o = Done (tt, σ)).
Proof.
  unfold paired_tests_body in Hrun.
  apply exec_bind_harmless in Hrun as (labels & t1 & t2 & -> & _ & Hrun);
    [|apply harmless_labels].
  apply exec_bind_harmless in Hrun as ([] & t3 & t4 & -> & _ & Hrun);
    [|apply harmless_call].
  apply exec_bind in Hrun as [(b & σ1 & t5 & t6 & Hloop & Hrun & ->)|(e & Hloop & ->)].
  - apply paired_loop_scan in Hloop
      as [[[= -> ->] _]|(pre & l & post & z & _ & _ & [= -> ->] & _ & Hlast)].
    + left. cbv beta iota in Hrun.
      unfold bind at 1, print, call in Hrun. cbn [prog_bind] in Hrun.
      destruct Hrun as ([] & t7 & -> & Hrun).
      rewrite teardown_eq in Hrun. destruct Hrun as [-> ->].
      split; [|rewrite teardown_eq; eauto].
      by rewrite !app_assoc, last_snoc.
    + right. cbv beta iota in Hrun. destruct Hrun as [-> ->].
      exists l. split; [|done]. rewrite app_nil_r.
      destruct t5 as [|a t5]; [done|].
      by rewrite !last_app, Hlast.
  - apply paired_loop_scan in Hloop as [[[=] _]|(? & ? & ? & ? & _ & _ & [=] & _)].
Qed.

(** ** [get_test_modules] *)

Lemma scan_dir_filter modpath entries σ t o :
  exec (scan_dir os_path_basename modpath entries σ) t o →
  ∃ ms, o = Done (ms, σ)
        ∧ ∀ mp f, (mp, f) ∈ ms →
            mp = modpath ∧ f ∈ entries
            ∧ has_char dot f = false ∧ f ≠ "__pycache__"
            ∧ String.prefix "sql" f = false
            ∧ (os_path_basename f ∉ SUBDIRS_TO_SKIP)
            ∧ AIsfile f false ∈ t.
Proof.
  revert t o. induction entries as [|f rest IH]; intros t o Hrun.
  - destruct Hrun as [-> ->]. exists []. split; [done|].
    intros ? ? Hin. by apply elem_of_nil in Hin.
  - cbn [scan_dir] in Hrun.
    apply exec_bind in Hrun as [(skip & σ1 & t1 & t2 & Hskip & Hrun & ->)|(e & Hskip & ->)].
    + assert (σ1 = σ) as -> by (case_match; exec_inv Hskip; done).
      apply exec_bind in Hrun as [(ms & σ2 & t3 & t4 & Hrest & Hrun & ->)|(e & Hrest & ->)].
      * destruct Hrun as [-> ->].
        apply IH in Hrest as (ms' & [= <- <-] & Hms).
        eexists. split; [done|]. intros mp g Hin.
        assert ((mp, g) ∈ ms → mp = modpath ∧ g ∈ f :: rest
                ∧ has_char dot g = false ∧ g ≠ "__pycache__"
                ∧ String.prefix "sql" g = false
                ∧ (os_path_basename g ∉ SUBDIRS_TO_SKIP)
                ∧ AIsfile g false ∈ (t1 ++ t3 ++ [])%list) as Hold.
        { intros Hin'. destruct (Hms _ _ Hin') as (? & ? & ? & ? & ? & ? & ?).
          split_and!; try done; [by apply list_elem_of_further|].
          rewrite !elem_of_app. by right; left. }
        destruct skip; [by apply Hold|].
        apply elem_of_cons in Hin as [[= -> ->]|Hin]; [|by apply Hold].
        destruct (has_char dot f) eqn:E1; [by exec_inv Hskip|].
        destruct (String.eqb_spec f "__pycache__") as [|E2]; [by exec_inv Hskip|].
        destruct (String.prefix "sql" f) eqn:E3; [by exec_inv Hskip|].
        simpl in Hskip. case_bool_decide as E4; [by exec_inv Hskip|].
        exec_inv Hskip. split_and!; try done; [apply list_elem_of_here|].
        apply list_elem_of_here.
      * by apply IH in Hrest as (? & [=] & _).
    + case_match; exec_inv Hskip.
Qed.

(** X15.  [get_test_modules] lists the two directories, the tests directory first,
    and returns exactly entries that passed every test of lines 67-72 (no
    dot in the name, not [__pycache__], not starting with [sql], not a
    directory to skip, not a file), the first directory's without a module
    path and the second's under [django.contrib]. *)
Theorem get_test_modules_filter (σ : pystore) (t : list action)
    (o : outcome (list (option string * string) * pystore))
    (Hrun : exec (get_test_modules RUNTESTS_DIR CONTRIB_DIR os_path_basename σ) t o) :
  ∃ entries1 entries2 ms,
    o = Done (ms, σ)
    ∧ head t = Some (AListdir RUNTESTS_DIR entries1)
    ∧ AListdir CONTRIB_DIR entries2 ∈ t
    ∧ ∀ mp f, (mp, f) ∈ ms →
        (mp = None ∧ f ∈ entries1 ∨ mp = Some CONTRIB_MODULE_PATH ∧ f ∈ entries2)
        ∧ has_char dot f = false ∧ f ≠ "__pycache__"
        ∧ String.prefix "sql" f = false
        ∧ (os_path_basename f ∉ SUBDIRS_TO_SKIP)
        ∧ AIsfile f false ∈ t.
Proof.
  unfold get_test_modules in Hrun.
  unfold bind at 1, call at 1 in Hrun. cbn [prog_bind] in Hrun.
  destruct Hrun as (entries1 & t' & -> & Hrun).
  apply exec_bind in Hrun as [(ms1 & σ1 & t1 & t2 & H1 & Hrun & ->)|(e & H1 & ->)];
    [|by apply scan_dir_filter in H1 as (? & [=] & _)].
  apply scan_dir_filter in H1 as (? & [= <- <-] & Hms1).
  unfold bind at 1, call at 1 in Hrun. cbn [prog_bind] in Hrun.
  destruct Hrun as (entries2 & t'' & -> & Hrun).
  apply exec_bind in Hrun as [(ms2 & σ2 & t3 & t4 & H2 & Hrun & ->)|(e & H2 & ->)];
    [|by apply scan_dir_filter in H2 as (? & [=] & _)].
  apply scan_dir_filter in H2 as (? & [= <- <-] & Hms2).
  destruct Hrun as [-> ->].
  exists entries1, entries2, (ms1 ++ ms2)%list. split_and!; [done|done| |].
  - cbn [observe]. rewrite elem_of_cons, elem_of_app, elem_of_cons. by right; right; left.
  - intros mp f Hin. apply elem_of_app in Hin as [Hin|Hin].
    + destruct (Hms1 _ _ Hin) as (-> & ? & ? & ? & ? & ? & ?).
      split_and!; try done; [by left|].
      rewrite elem_of_cons, elem_of_app. by right; left.
    + destruct (Hms2 _ _ Hin) as (-> & ? & ? & ? & ? & ? & ?).
      split_and!; try done; [by right|].
      rewrite elem_of_cons, elem_of_app, elem_of_cons, elem_of_app.
      by right; right; right; left.
Qed.

(** ** Loading the test applications *)

Lemma existsb_is_str a (l : list value) :
  existsb (is_str a) l = true ↔ VStr a ∈ l.
Proof.
  rewrite existsb_exists. split.
  - intros (x & Hin & Hx). apply list_elem_of_In in Hin.
    destruct x; try done. simpl in Hx.
    by apply String.eqb_eq in Hx as ->.
  - intros Hin. exists (VStr a). split; [by apply list_elem_of_In|].
    simpl. apply String.eqb_refl.
Qed.

(** What one run of the loop of lines 141-165 does to the store. *)
Lemma load_test_modules_grows (verbosity : Z) (test_labels : list string)
    (test_labels_set : gset string) (test_modules : list (option string * string))
    (σ σ' : pystore) (r0 : loc) (old : list value) (t : list action)
    (Happs : settings σ !! "INSTALLED_APPS" = Some (VList r0))
    (Hold : lists σ !! r0 = Some old)
    (Hrun : exec (load_test_modules verbosity test_labels test_labels_set
                    test_modules σ) t (Done (tt, σ'))) :
  settings σ' = settings σ
  ∧ (∀ r, r ≠ r0 → lists σ' !! r = lists σ !! r)
  ∧ ∃ added,
      lists σ' !! r0 = Some (old ++ (VStr <$> added))%list
      ∧ NoDup added
      ∧ ∀ a, a ∈ added → (VStr a ∉ old) ∧ ALoadApp a true ∈ t.
Proof.
  revert σ old t Happs Hold Hrun.
  induction test_modules as [|[modpath module_name] rest IH];
    intros σ old t Happs Hold Hrun.
  - destruct Hrun as [-> [= ->]]. split_and!; [done|done|].
    exists []. rewrite app_nil_r. split_and!; [done|constructor|].
    intros a Hin. by apply elem_of_nil in Hin.
  - cbn [load_test_modules] in Hrun.
    apply exec_bind in Hrun as [([] & σ1 & t1 & t2 & H1 & H2 & ->)|(e & _ & [=])].
    match type of H1 with
    | context [LoadApp ?lbl] => set (label := lbl) in *
    end.
    assert (settings σ1 = settings σ
            ∧ (∀ r, r ≠ r0 → lists σ1 !! r = lists σ !! r)
            ∧ ((lists σ1 !! r0 = Some old)
               ∨ (lists σ1 !! r0 = Some (old ++ [VStr label])%list
                  ∧ (VStr label ∉ old) ∧ ALoadApp label true ∈ t1)))
      as (Hs & Hfr & Hcase).
    { clear H2 IH.
      case_match; [|destruct H1 as [_ ?]; simplify_eq; by split_and!; [| |left]].
      unfold getattr, contains, append in H1. exec_inv H1; simplify_eq/=.
      all: split_and!;
        [ done
        | intros r Hr; first [done|by rewrite lookup_insert_ne]
        | first [by left|right] ].
      all: split_and!; [by rewrite lookup_insert_eq| |in_list].
      all: intros Hin; apply existsb_is_str in Hin; congruence. }
    destruct Hcase as [Hsame|(Hnew & Hfresh & Hload)].
    + destruct (IH σ1 old t2) as (Hs' & Hfr' & added & Hl & Hnd & Hadd);
        [by rewrite Hs|done|done|].
      split_and!; [congruence|intros r Hr; rewrite Hfr' by done; by apply Hfr|].
      exists added. split_and!; [done|done|].
      intros a Ha. destruct (Hadd a Ha). split; [done|].
      rewrite elem_of_app. by right.
    + destruct (IH σ1 (old ++ [VStr label])%list t2)
        as (Hs' & Hfr' & added & Hl & Hnd & Hadd); [by rewrite Hs|done|done|].
      split_and!; [congruence|intros r Hr; rewrite Hfr' by done; by apply Hfr|].
      exists (label :: added). split_and!.
      * by rewrite Hl, <-app_assoc.
      * constructor; [|done]. intros Hin. destruct (Hadd _ Hin) as [Hno _].
        apply Hno. rewrite elem_of_app, list_elem_of_singleton. by right.
      * intros a Ha. apply elem_of_cons in Ha as [->|Ha].
        -- split; [done|]. rewrite elem_of_app. by left.
        -- destruct (Hadd a Ha) as [Hno ?]. split.
           ++ intros Hin. apply Hno. rewrite elem_of_app. by left.
           ++ rewrite elem_of_app. by right.
Qed.

(** X16.  The loop of lines 141-165 only appends to the list [INSTALLED_APPS]
    refers to: the items it had stay in place, a label is appended only after
    [load_app] gave a module for it and only if it was not in the list, and
    no label is appended twice.  The settings object and every other list
    stay as they were. *)
Theorem load_test_modules_appends (verbosity : Z) (test_labels : list string)
    (test_labels_set : gset string) (test_modules : list (option string * string))
    (σ σ' : pystore) (r0 : loc) (old : list value) (t : list action)
    (Happs : settings σ !! "INSTALLED_APPS" = Some (VList r0))
    (Hold : lists σ !! r0 = Some old)
    (Hrun : exec (load_test_modules verbosity test_labels test_labels_set
                    test_modules σ) t (Done (tt, σ'))) :
  settings σ' = settings σ
  ∧ (∀ r, r ≠ r0 → lists σ' !! r = lists σ !! r)
  ∧ ∃ added,
      lists σ' !! r0 = Some (old ++ (VStr <$> added))%list
      ∧ NoDup added
      ∧ ∀ a, a ∈ added → (VStr a ∉ old) ∧ ALoadApp a true ∈ t.
Proof.
  exact (load_test_modules_grows verbosity test_labels test_labels_set
           test_modules σ σ' r0 old t Happs Hold Hrun).
Qed.

Lemma load_test_modules_no_list verbosity test_labels test_labels_set test_modules
    σ σ' r0 t :
  settings σ !! "INSTALLED_APPS" = Some (VList r0) →
  lists σ !! r0 = None →
  exec (load_test_modules verbosity test_labels test_labels_set test_modules σ) t
    (Done (tt, σ')) →
  σ' = σ.
Proof.
  revert σ t. induction test_modules as [|[modpath module_name] rest IH];
    intros σ t Happs Hnone Hrun.
  - by destruct Hrun as [_ [= ->]].
  - cbn [load_test_modules] in Hrun.
    apply exec_bind in Hrun as [([] & σ1 & t1 & t2 & H1 & H2 & ->)|(e & _ & [=])].
    assert (σ1 = σ) as ->.
    { clear H2 IH. case_match; [|destruct H1 as [_ ?]; by simplify_eq].
      unfold getattr, contains, append in H1. exec_inv H1; by simplify_eq/=. }
    by apply IH in H2.
Qed.

(** ** [setup] *)

(** What a run of [setup] that returns has done. *)
Lemma setup_done verbosity test_labels parallel σ t (st : state) σ1 :
  exec (setup RUNTESTS_DIR CONTRIB_DIR TEMP_DIR DJANGO_DIR os_path_join
          os_path_basename verbosity test_labels parallel σ) t (Done (st, σ1)) →
  ∃ v1 v3 v4 v5 v6,
    settings σ !! "INSTALLED_APPS" = Some v1
    ∧ settings σ !! "TEMPLATE_DIRS" = Some v3
    ∧ settings σ !! "LANGUAGE_CODE" = Some v4
    ∧ settings σ !! "STATIC_URL" = Some v5
    ∧ settings σ !! "STATIC_ROOT" = Some v6
    ∧ st = [ ("INSTALLED_APPS", v1);
             ("ROOT_URLCONF", default (VStr "") (settings σ !! "ROOT_URLCONF"));
             ("TEMPLATE_DIRS", v3); ("LANGUAGE_CODE", v4);
             ("STATIC_URL", v5); ("STATIC_ROOT", v6) ]
    ∧ settings σ1
      = <["SITE_ID" := VInt 1]> (<["LANGUAGE_CODE" := VStr "en"]>
        (<["TEMPLATE_DIRS" := VTuple [VStr (os_path_join RUNTESTS_DIR TEST_TEMPLATE_DIR)]]>
        (<["STATIC_ROOT" := VStr (os_path_join TEMP_DIR "static")]>
        (<["STATIC_URL" := VStr "/static/"]> (<["ROOT_URLCONF" := VStr "urls"]>
        (<["INSTALLED_APPS" := VList ALWAYS_INSTALLED_APPS]> (settings σ)))))))
    ∧ (∀ r, r ≠ ALWAYS_INSTALLED_APPS → lists σ1 !! r = lists σ !! r)
    ∧ (∀ old, lists σ !! ALWAYS_INSTALLED_APPS = Some old →
         ∃ added, lists σ1 !! ALWAYS_INSTALLED_APPS = Some (old ++ (VStr <$> added))%list
                  ∧ NoDup added ∧ ∀ a, a ∈ added → VStr a ∉ old).
Proof.
  intros Hrun. unfold setup in Hrun.
  destruct (settings σ !! "INSTALLED_APPS") as [v1|] eqn:H1;
    [|unfold bind at 1, getattr at 1 in Hrun; rewrite H1 in Hrun;
      by destruct Hrun as [_ [=]]].
  rewrite (bind_getattr _ _ _ _ H1) in Hrun.
  unfold bind at 1, getattr_default in Hrun. cbn [prog_bind] in Hrun.
  destruct (settings σ !! "TEMPLATE_DIRS") as [v3|] eqn:H3;
    [|unfold bind at 1, getattr at 1 in Hrun; rewrite H3 in Hrun;
      by destruct Hrun as [_ [=]]].
  rewrite (bind_getattr _ _ _ _ H3) in Hrun.
  destruct (settings σ !! "LANGUAGE_CODE") as [v4|] eqn:H4;
    [|unfold bind at 1, getattr at 1 in Hrun; rewrite H4 in Hrun;
      by destruct Hrun as [_ [=]]].
  rewrite (bind_getattr _ _ _ _ H4) in Hrun.
  destruct (settings σ !! "STATIC_URL") as [v5|] eqn:H5;
    [|unfold bind at 1, getattr at 1 in Hrun; rewrite H5 in Hrun;
      by destruct Hrun as [_ [=]]].
  rewrite (bind_getattr _ _ _ _ H5) in Hrun.
  destruct (settings σ !! "STATIC_ROOT") as [v6|] eqn:H6;
    [|unfold bind at 1, getattr at 1 in Hrun; rewrite H6 in Hrun;
      by destruct Hrun as [_ [=]]].
  rewrite (bind_getattr _ _ _ _ H6) in Hrun.
  do 7 (unfold bind at 1, setattr at 1 in Hrun; cbn [prog_bind] in Hrun).
  cbn [settings lists] in Hrun.
  match type of Hrun with
  | exec (bind _ _ ?s) _ _ => set (σa := s) in *
  end.
  assert (settings σa !! "INSTALLED_APPS" = Some (VList ALWAYS_INSTALLED_APPS))
    as Happs by (unfold σa; cbn [settings]; by simplify_map_eq).
  apply exec_bind_harmless in Hrun as (? & ? & ? & -> & _ & Hrun);
    [|apply harmless_when, harmless_call].
  apply exec_bind_harmless in Hrun as (? & ? & ? & -> & _ & Hrun);
    [|apply harmless_when, harmless_call].
  apply exec_bind_harmless in Hrun as (? & ? & ? & -> & _ & Hrun);
    [|apply harmless_call].
  apply exec_bind_harmless in Hrun as (mods & ? & ? & -> & _ & Hrun);
    [|apply harmless_get_test_modules].
  apply exec_bind in Hrun as [([] & σ2 & t1 & t2 & Hload & Hret & ->)|(e & _ & [=])].
  destruct Hret as [-> [= -> ->]].
  exists v1, v3, v4, v5, v6. split_and!; try done.
  - destruct (lists σa !! ALWAYS_INSTALLED_APPS) as [old|] eqn:Hold.
    + by destruct (load_test_modules_grows _ _ _ _ _ _ _ _ _ Happs Hold Hload)
        as (-> & _).
    + by rewrite (load_test_modules_no_list _ _ _ _ _ _ _ _ Happs Hold Hload).
  - intros r Hr.
    destruct (lists σa !! ALWAYS_INSTALLED_APPS) as [old|] eqn:Hold.
    + destruct (load_test_modules_grows _ _ _ _ _ _ _ _ _ Happs Hold Hload)
        as (_ & Hfr & _). by rewrite Hfr.
    + by rewrite (load_test_modules_no_list _ _ _ _ _ _ _ _ Happs Hold Hload).
  - intros old Hold.
    destruct (load_test_modules_grows _ _ _ _ _ _ _ _ _ Happs Hold Hload)
      as (_ & _ & added & Hl & Hnd & Hadd).
    exists added. split_and!; [done|done|]. intros a Ha. by apply Hadd.
Qed.

(** X17.  [setup] followed by [teardown] is not a full round trip.  When [setup]
    returns, [teardown] of its result leaves [SITE_ID] at 1 and a
    [ROOT_URLCONF] that did not exist at the empty string, and the list
    [ALWAYS_INSTALLED_APPS] keeps, after its old items, the labels [setup]
    appended; every attribute other than the six recorded ones and [SITE_ID]
    is as it was. *)
Theorem setup_teardown_leftovers (verbosity : Z) (test_labels : list string)
    (parallel : Z) (σ σ1 : pystore) (st : state) (t : list action)
    (Hrun : exec (setup RUNTESTS_DIR CONTRIB_DIR TEMP_DIR DJANGO_DIR os_path_join
                    os_path_basename verbosity test_labels parallel σ) t
              (Done (st, σ1))) :
  ∃ σ2, teardown st σ1 = Ret (tt, σ2)
        ∧ settings σ2 !! "SITE_ID" = Some (VInt 1)
        ∧ (settings σ !! "ROOT_URLCONF" = None →
           settings σ2 !! "ROOT_URLCONF" = Some (VStr ""))
        ∧ (∀ k, k ∉ saved_settings → k ≠ "SITE_ID" →
                settings σ2 !! k = settings σ !! k)
        ∧ (∀ old, lists σ !! ALWAYS_INSTALLED_APPS = Some old →
             ∃ added, lists σ2 !! ALWAYS_INSTALLED_APPS
                      = Some (old ++ (VStr <$> added))%list
                      ∧ NoDup added ∧ ∀ a, a ∈ added → VStr a ∉ old).
Proof.
  apply setup_done in Hrun
    as (v1 & v3 & v4 & v5 & v6 & _ & _ & _ & _ & _ & -> & Hs & _ & Hl).
  eexists. split; [reflexivity|]. cbn [settings lists]. rewrite Hs.
  split_and!.
  - by simplify_map_eq.
  - intros ->. by simplify_map_eq.
  - intros k Hk Hsite. unfold saved_settings in Hk.
    rewrite !not_elem_of_cons in Hk. destruct Hk as (? & ? & ? & ? & ? & ? & _).
    by simplify_map_eq.
  - done.
Qed.

(** X18.  [setup] needs five settings: when one is missing it raises
    [AttributeError] for the first missing one (in the order of the dictionary
    literal of lines 85-92) before it has made any call; a missing
    [ROOT_URLCONF] is no error. *)
Theorem setup_missing_setting (verbosity : Z) (test_labels : list string)
    (parallel : Z) (σ : pystore) :
  let run := setup RUNTESTS_DIR CONTRIB_DIR TEMP_DIR DJANGO_DIR os_path_join
               os_path_basename verbosity test_labels parallel σ in
  (settings σ !! "INSTALLED_APPS" = None →
   run = Raise (AttributeError "INSTALLED_APPS"))
  ∧ (is_Some (settings σ !! "INSTALLED_APPS") →
     settings σ !! "TEMPLATE_DIRS" = None →
     run = Raise (AttributeError "TEMPLATE_DIRS"))
  ∧ (is_Some (settings σ !! "INSTALLED_APPS") →
     is_Some (settings σ !! "TEMPLATE_DIRS") →
     settings σ !! "LANGUAGE_CODE" = None →
     run = Raise (AttributeError "LANGUAGE_CODE"))
  ∧ (is_Some (settings σ !! "INSTALLED_APPS") →
     is_Some (settings σ !! "TEMPLATE_DIRS") →
     is_Some (settings σ !! "LANGUAGE_CODE") →
     settings σ !! "STATIC_URL" = None →
     run = Raise (AttributeError "STATIC_URL"))
  ∧ (is_Some (settings σ !! "INSTALLED_APPS") →
     is_Some (settings σ !! "TEMPLATE_DIRS") →
     is_Some (settings σ !! "LANGUAGE_CODE") →
     is_Some (settings σ !! "STATIC_URL") →
     settings σ !! "STATIC_ROOT" = None →
     run = Raise (AttributeError "STATIC_ROOT")).
Proof.
  intros run. unfold run, setup.
  split_and!; intros; repeat match goal with H : is_Some _ |- _ => destruct H end;
    unfold bind, getattr, getattr_default; cbn [prog_bind];
    repeat (match goal with
            | H : settings σ !! _ = _ |- _ => rewrite H; clear H
            end; cbn [prog_bind]);
    reflexivity.
Qed.

End Script.

(** ** Reducing a test label to its application *)

Lemma split_on_no_dot (s : string) :
  has_char dot s = false → split_on dot s = [s].
Proof.
  induction s as [|a s IH]; simpl; [done|].
  intros [Ha Hs]%orb_false_iff. rewrite Ha, (IH Hs). done.
Qed.

Lemma split_on_cons_dot (m rest : string) :
  has_char dot m = false →
  split_on dot (m +:+ "." +:+ rest) = m :: split_on dot rest.
Proof.
  induction m as [|a m IH]; simpl; [done|].
  intros [Ha Hm]%orb_false_iff. rewrite Ha, (IH Hm). done.
Qed.

(** X19.  [setup] cuts a test label down to the application it names: a label
    without a dot is kept, [module.anything] becomes [module], and
    [django.contrib.app] with or without a tail becomes [django.contrib.app];
    the module named by the label then passes the test of lines 152-155. *)
Theorem reduce_label_names_the_app :
  (∀ m, has_char dot m = false → reduce_label m = m)
  ∧ (∀ m rest, has_char dot m = false → m ≠ "django" →
       reduce_label (m +:+ "." +:+ rest) = m
       ∧ label_match m (reduce_label (m +:+ "." +:+ rest)) = true)
  ∧ (∀ a, has_char dot a = false →
       reduce_label ("django.contrib." +:+ a) = "django.contrib." +:+ a)
  ∧ (∀ a rest, has_char dot a = false →
       reduce_label ("django.contrib." +:+ a +:+ "." +:+ rest)
       = "django.contrib." +:+ a
       ∧ label_match ("django.contrib." +:+ a)
           (reduce_label ("django.contrib." +:+ a +:+ "." +:+ rest)) = true).
Proof.
  assert (∀ m rest, has_char dot m = false → m ≠ "django" →
            reduce_label (m +:+ "." +:+ rest) = m) as Hmod.
  { intros m rest Hm Hne. unfold reduce_label.
    rewrite (split_on_cons_dot _ _ Hm).
    rewrite bool_decide_eq_false_2; [done|].
    destruct (split_on dot rest); intros [=]; done. }
  assert (∀ a rest, has_char dot a = false →
            reduce_label ("django.contrib." +:+ a +:+ "." +:+ rest)
            = "django.contrib." +:+ a) as Hcontrib.
  { intros a rest Ha. unfold reduce_label.
    change ("django.contrib." +:+ a +:+ "." +:+ rest)
      with ("django" +:+ "." +:+ ("contrib" +:+ "." +:+ (a +:+ "." +:+ rest))).
    rewrite (split_on_cons_dot "django") by done.
    rewrite (split_on_cons_dot "contrib") by done.
    rewrite (split_on_cons_dot a) by done. done. }
  split_and!.
  - intros m Hm. unfold reduce_label. rewrite (split_on_no_dot _ Hm).
    by rewrite bool_decide_eq_false_2.
  - intros m rest Hm Hne. rewrite (Hmod _ _ Hm Hne). split; [done|].
    unfold label_match. by rewrite String.eqb_refl.
  - intros a Ha. unfold reduce_label.
    change ("django.contrib." +:+ a)
      with ("django" +:+ "." +:+ ("contrib" +:+ "." +:+ a)).
    rewrite (split_on_cons_dot "django") by done.
    rewrite (split_on_cons_dot "contrib") by done.
    by rewrite (split_on_no_dot _ Ha).
  - intros a rest Ha. rewrite (Hcontrib _ _ Ha). split; [done|].
    unfold label_match. by rewrite String.eqb_refl.
Qed.

End RuntestsExtras.

(** * Properties of the runs of the whole suite *)

Module DriverExtras.
Import Runtests RuntestsProofs RuntestsExtras Driver.

#[local] Arguments nonzero : simpl never.

(** ** Application names *)

Lemma split_on_nonempty c s : split_on c s ≠ [].
Proof.
  destruct s as [|a s]; simpl; [done|].
  destruct (Ascii.eqb a c); [done|]. by destruct (split_on c s).
Qed.

Lemma split_on_app_dot (p rest : string) :
  split_on dot (p +:+ "." +:+ rest) = (split_on dot p ++ split_on dot rest)%list.
Proof.
  induction p as [|a p IH]; simpl; [done|].
  destruct (Ascii.eqb a dot); [by rewrite IH|].
  rewrite IH. pose proof (split_on_nonempty dot p).
  by destruct (split_on dot p).
Qed.

Lemma concat_cons_cons sep (x y : string) l :
  String.concat sep (x :: y :: l) = x +:+ sep +:+ String.concat sep (y :: l).
Proof. done. Qed.

Lemma join_split (s : string) : String.concat "." (split_on dot s) = s.
Proof.
  induction s as [|a s IH]; simpl; [done|].
  pose proof (split_on_nonempty dot s) as Hne.
  destruct (Ascii.eqb_spec a dot) as [->|Ha].
  - destruct (split_on dot s) as [|w ws]; [done|].
    rewrite concat_cons_cons, IH. done.
  - destruct (split_on dot s) as [|w ws]; [done|].
    destruct ws as [|w' ws].
    + simpl in *. by rewrite IH.
    + rewrite concat_cons_cons. rewrite concat_cons_cons in IH.
      change (String a (w +:+ "." +:+ String.concat "." (w' :: ws)) = String a s).
      by rewrite IH.
Qed.

(** X20.  The name [get_installed] derives from a module name: a dotted name
    loses its last component and the dot before it ([pkg.app.models] gives
    [pkg.app]), a name without a dot is kept whole. *)
Theorem rsplit_dot_head_strips_last :
  (∀ s, has_char dot s = false → rsplit_dot_head s = s)
  ∧ (∀ p last, has_char dot last = false →
       rsplit_dot_head (p +:+ "." +:+ last) = p).
Proof.
  split.
  - intros s Hs. unfold rsplit_dot_head.
    by rewrite (RuntestsExtras.split_on_no_dot _ Hs).
  - intros p last Hlast. unfold rsplit_dot_head.
    rewrite split_on_app_dot, (RuntestsExtras.split_on_no_dot _ Hlast).
    pose proof (split_on_nonempty dot p) as Hne.
    destruct (split_on dot p) as [|w ws] eqn:Hp; [done|].
    assert (take (length ((w :: ws) ++ [last]) - 1)%nat ((w :: ws) ++ [last])%list
            = w :: ws) as Htake by apply take_all_but_last.
    cbn [app] in *. rewrite <-Hp in Htake.
    destruct ws as [|w' ws].
    + simpl. rewrite <-(join_split p), Hp. done.
    + cbn [app]. cbn [app] in Htake.
      rewrite Hp in Htake. rewrite Htake, <-Hp. apply join_split.
Qed.

Section Driver.
Variable py : python.
Variables RUNTESTS_DIR CONTRIB_DIR TEMP_DIR DJANGO_DIR : string.
Variables sys_executable script_file : string.
Variable os_path_join : string → string → string.
Variable os_path_basename : string → string.
Variable has_fork : bool.
Variable can_clone_databases : list bool.
Variable default_test_processes : Z.
Variable run_tests : Z → bool → bool → Z → list string → M pystore Z.

(** X21.  A run of [django_tests] that returns is a run of [setup], one run of the
    runner (on the given labels when there are any, with the process count of
    [actual_test_processes]) and [teardown]; it returns the runner's count,
    and each of the six recorded settings holds what it held when
    [django_tests] was entered, whatever the runner did to the settings in
    between. *)
Theorem django_tests_restores (verbosity : Z) (interactive failfast : bool)
    (test_labels : list string) (parallel z : Z) (σ σ' : pystore)
    (t : list action)
    (Hrun : exec (django_tests RUNTESTS_DIR CONTRIB_DIR TEMP_DIR DJANGO_DIR
                    os_path_join os_path_basename has_fork can_clone_databases
                    default_test_processes run_tests
                    verbosity interactive failfast test_labels parallel σ) t
              (Done (z, σ'))) :
  (∀ k, k ∈ saved_settings →
        settings σ' !! k = Some (default (VStr "") (settings σ !! k)))
  ∧ ∃ st σ1 σ2 labels t1 t2 t3,
      t = (t1 ++ t2 ++ t3)%list
      ∧ exec (setup RUNTESTS_DIR CONTRIB_DIR TEMP_DIR DJANGO_DIR os_path_join
                os_path_basename verbosity test_labels parallel σ) t1
          (Done (st, σ1))
      ∧ (test_labels ≠ [] → labels = test_labels ∧ t2 = [])
      ∧ exec (run_tests verbosity interactive failfast
                (actual_test_processes has_fork can_clone_databases
                   default_test_processes parallel) labels σ1) t3
          (Done (z, σ2))
      ∧ teardown st σ2 = Ret (tt, σ').
Proof.
  unfold django_tests in Hrun.
  apply exec_bind in Hrun as [(st & σ1 & t1 & t' & Hsetup & Hrun & ->)|(e & _ & [=])].
  apply exec_bind_harmless in Hrun as (labels & t2 & t'' & -> & Hlabels & Hrun);
    [|apply harmless_labels].
  apply exec_bind in Hrun as [(z' & σ2 & t3 & t4 & Hrunner & Hrun & ->)|(e & _ & [=])].
  unfold bind in Hrun. rewrite teardown_eq in Hrun. cbn [prog_bind] in Hrun.
  destruct Hrun as [-> [= -> ->]].
  split.
  - apply setup_done in Hsetup
      as (v1 & v3 & v4 & v5 & v6 & H1 & H3 & H4 & H5 & H6 & -> & _).
    intros k Hk. cbn [settings]. unfold saved_settings in Hk.
    rewrite !elem_of_cons in Hk.
    destruct Hk as [->|[->|[->|[->|[->|[->|Hk]]]]]];
      [..|by apply elem_of_nil in Hk];
      rewrite ?H1, ?H3, ?H4, ?H5, ?H6; by simplify_map_eq.
  - exists st, σ1, σ2, labels, t1, t2, t3. rewrite app_nil_r.
    split_and!; [done|done| |done|apply teardown_eq].
    intros Hne. destruct test_labels; [done|]. by destruct Hlabels as [-> [= ->]].
Qed.

(** X22.  The dispatch of lines 385-397.  With [--bisect] or [--pair] every run
    ends in [TypeError] before the script has printed or started anything.
    Otherwise the script ends normally when [django_tests] reports no
    failure and leaves with exit status 1, whatever the count, when it reports
    some; an exception of [django_tests] goes through. *)
Theorem dispatch_outcomes (c : cli) (σ : pystore) (t : list action)
    (o : outcome (unit * pystore))
    (Hrun : exec (dispatch py RUNTESTS_DIR CONTRIB_DIR TEMP_DIR DJANGO_DIR
                    sys_executable script_file os_path_join os_path_basename
                    has_fork can_clone_databases default_test_processes
                    run_tests c σ) t o) :
  let suite :=
    django_tests RUNTESTS_DIR CONTRIB_DIR TEMP_DIR DJANGO_DIR os_path_join
      os_path_basename has_fork can_clone_databases default_test_processes
      run_tests (o_verbosity (c_options c)) (o_interactive (c_options c))
      (o_failfast (c_options c)) (c_modules c) (c_parallel c) σ in
  (given (c_bisect c) || given (c_pair c) = true →
   t = [] ∧ o = Raised (TypeError "setup() takes exactly 3 arguments (2 given)"))
  ∧ (given (c_bisect c) || given (c_pair c) = false →
     (∃ z σ', exec suite t (Done (z, σ'))
              ∧ o = if nonzero z then Raised (SystemExit 1) else Done (tt, σ'))
     ∨ (∃ e, exec suite t (Raised e) ∧ o = Raised e)).
Proof.
  intros suite. unfold dispatch in Hrun.
  destruct (given (c_bisect c)) eqn:Hb; [|destruct (given (c_pair c)) eqn:Hp].
  - split; [|done]. intros _. by destruct Hrun as [-> ->].
  - split; [|done]. intros _. by destruct Hrun as [-> ->].
  - split; [done|]. intros _.
    apply exec_bind in Hrun as [(z & σ1 & t1 & t2 & Hsuite & Hrun & ->)|(e & Hsuite & ->)].
    + left. exists z, σ1. destruct (nonzero z); destruct Hrun as [-> ->];
        by rewrite app_nil_r.
    + right. by exists e.
Qed.

End Driver.
End DriverExtras.

(** * The further properties at work on the concrete environment *)

Module CreationExtraChecks.
Import Creation CreationProofs CreationExtras.

Lemma create_test_db_in_memory_witness :
  _create_test_db Env.in_memory 2 false Env.databases
  = Ret (VStr ":memory:", Env.databases).
Proof.
  apply (create_test_db_in_memory Env.in_memory 2 false Env.databases
           Env.memory_settings VNone eq_refl eq_refl).
  by left.
Defined.

Lemma create_test_db_removes_with_consent_witness :
  (run Env.respond (_create_test_db Env.on_disk 1 true Env.databases)
     Env.with_test_db).1.1
  = [APrint "Destroying old test database 'default'...";
     AAccess "test.sqlite3" true; ARemove "test.sqlite3" None]
  ∧ AAccess "test.sqlite3" true
    ∈ [APrint "Destroying old test database 'default'...";
       AAccess "test.sqlite3" true].
Proof.
  assert ((run Env.respond (_create_test_db Env.on_disk 1 true Env.databases)
             Env.with_test_db).1.1
          = ([APrint "Destroying old test database 'default'...";
              AAccess "test.sqlite3" true]
             ++ ARemove "test.sqlite3" None :: [])%list) as Ht
    by (vm_compute; reflexivity).
  destruct (create_test_db_removes_with_consent Env.on_disk 1 true Env.databases
              _ _ (run_exec Env.respond _ Env.with_test_db)) as [H _].
  destruct (H _ _ _ _ Ht) as [Hin _].
  split; [exact Ht|exact Hin].
Defined.

Lemma create_test_db_asks_once_witness :
  ∃ name,
    _get_test_db_name Env.on_disk Env.databases = Ret (VStr name, Env.databases)
    ∧ last [APrint "Destroying old test database 'default'...";
            AAccess "test.sqlite3" true]
      = Some (AAccess name true)
    ∧ "Type 'yes' if you would like to try deleting the test database 'test.sqlite3', or 'no' to cancel: "
      = "Type 'yes' if you would like to try deleting the test database '"
        +:+ name +:+ "', or 'no' to cancel: ".
Proof.
  assert ((run Env.respond (_create_test_db Env.on_disk 1 false Env.databases)
             Env.with_test_db).1.1
          = ([APrint "Destroying old test database 'default'...";
              AAccess "test.sqlite3" true]
             ++ AInput "Type 'yes' if you would like to try deleting the test database 'test.sqlite3', or 'no' to cancel: " "no"
                :: [APrint "Tests cancelled."])%list) as Ht
    by (vm_compute; reflexivity).
  destruct (create_test_db_asks_once Env.on_disk 1 false Env.databases
              _ _ (run_exec Env.respond _ Env.with_test_db) _ _ _ _ Ht)
    as (_ & Hname & _).
  exact Hname.
Defined.

Lemma clone_settings_alias_only_in_memory_witness :
  ∃ σ',
    (d <- get_test_db_clone_settings Env.is_in_memory_db Env.splitext
            Env.on_disk 1;;
     setitem d "NAME" (VStr "other.sqlite3");;
     getitem (settings_dict Env.on_disk) "NAME") Env.databases
    = Ret (VStr "db.sqlite3", σ').
Proof.
  destruct (clone_settings_alias_only_in_memory Env.is_in_memory_db Env.splitext
              Env.on_disk 1 Env.databases Env.disk_settings "db.sqlite3"
              (VStr "other.sqlite3") eq_refl eq_refl) as (σ' & H & _).
  exists σ'. exact H.
Defined.

Lemma missing_keys_raise_witness :
  test_db_signature Env.bare Env.databases = Raise (KeyError "TEST_NAME").
Proof.
  destruct (missing_keys_raise Env.is_in_memory_db Env.splitext Env.bare 1 1
              false Env.databases {[ "NAME" := VStr "db.sqlite3" ]} eq_refl)
    as (_ & H & _).
  apply H. reflexivity.
Defined.

Lemma clone_name_inj_witness :
  clone_name Env.splitext "db.sqlite3" 1 ≠ clone_name Env.splitext "db.sqlite3" 2.
Proof. apply (clone_name_inj Env.splitext "db.sqlite3" 1 2). lia. Defined.

Lemma clone_test_db_keeps_dicts_witness :
  ∃ σ',
    (run Env.respond
       (_clone_test_db Env.is_in_memory_db Env.splitext Env.on_disk 1 1 false
          Env.databases) Env.with_test_db).1.2 = Done (tt, σ')
    ∧ σ' !! settings_dict Env.on_disk = Some Env.disk_settings.
Proof.
  assert (∃ σ',
            (run Env.respond
               (_clone_test_db Env.is_in_memory_db Env.splitext Env.on_disk 1 1
                  false Env.databases) Env.with_test_db).1.2 = Done (tt, σ'))
    as [σ' E] by (eexists; reflexivity).
  pose proof (run_exec Env.respond
                (_clone_test_db Env.is_in_memory_db Env.splitext Env.on_disk 1 1
                   false Env.databases) Env.with_test_db) as Hrun.
  rewrite E in Hrun.
  exists σ'. split; [exact E|].
  apply (clone_test_db_keeps_dicts Env.is_in_memory_db Env.splitext Env.on_disk
           1 1 false Env.databases σ' _ Hrun).
  reflexivity.
Defined.

End CreationExtraChecks.

Module RuntestsExtraChecks.
Import Runtests RuntestsProofs RuntestsExtras.

Lemma drop_special_keeps_the_rest_witness :
  "b" ∉ drop_special "b" ["w"; "b"; "model_inheritance_same_model_name"; "x"].
Proof.
  destruct (drop_special_keeps_the_rest "b"
              ["w"; "b"; "model_inheritance_same_model_name"; "x"])
    as (_ & _ & H & _).
  apply H. apply (bool_decide_unpack _). vm_compute. exact I.
Defined.

Lemma bisect_loop_keeps_a_segment_witness :
  ∃ pre post, ["w"; "x"; "y"; "z"] = (pre ++ ["y"] ++ post)%list.
Proof.
  assert ((run Env.respond
             (bisect_loop Python2 "b" ["python"] 4 ["w"; "x"; "y"; "z"] 1 Env.at_start)
             Env.y_fails).1.2 = Done (Some ["y"], Env.at_start)) as E
    by (vm_compute; reflexivity).
  pose proof (run_exec Env.respond
                (bisect_loop Python2 "b" ["python"] 4 ["w"; "x"; "y"; "z"] 1 Env.at_start)
                Env.y_fails) as Hrun.
  rewrite E in Hrun.
  exact (bisect_loop_keeps_a_segment Python2 "b" ["python"] 4 ["w"; "x"; "y"; "z"] ["y"]
           1 Env.at_start Env.at_start _ Hrun).
Defined.

Lemma bisect_loop_finds_the_culprit_witness :
  (run Env.respond
     (bisect_loop Python2 "b" ["python"] 4 ["w"; "x"; "y"; "z"] 1 Env.at_start)
     Env.y_fails).1.2 = Done (Some ["y"], Env.at_start).
Proof.
  assert (calls (run Env.respond
                   (bisect_loop Python2 "b" ["python"] 4 ["w"; "x"; "y"; "z"] 1
                      Env.at_start) Env.y_fails).1.1
          = [ (["python"; "w"; "x"; "b"], 0); (["python"; "y"; "z"; "b"], 1);
              (["python"; "y"; "b"], 1); (["python"; "z"; "b"], 0) ]) as Hcalls
    by (vm_compute; reflexivity).
  refine (proj1 (bisect_loop_finds_the_culprit Python2 "b" "y" ["python"]
                   ["w"; "x"; "y"; "z"] 4 1 Env.at_start
                   (run Env.respond
                      (bisect_loop Python2 "b" ["python"] 4 ["w"; "x"; "y"; "z"] 1
                         Env.at_start) Env.y_fails).1.1 _ _ _ _ _ _ _ _) eq_refl).
  - apply (bool_decide_unpack _). vm_compute. exact I.
  - in_list.
  - intros H. not_in_list H.
  - discriminate.
  - simpl. lia.
  - apply run_exec.
  - intros a z Hin. rewrite Hcalls in Hin.
    repeat (apply elem_of_cons in Hin as [Hin|Hin];
            [injection Hin as -> ->; split;
             [first [discriminate | intros _; in_list]
             |first [reflexivity | intros H; not_in_list H]]|]).
    by apply elem_of_nil in Hin.
Defined.

Lemma bisect_loop_call_bound_witness :
  (length (calls (run Env.respond
                    (bisect_loop Python2 "b" ["python"] 4 ["w"; "x"; "y"; "z"] 1
                       Env.at_start) Env.y_fails).1.1)
   ≤ 2 * Nat.log2_up 4)%nat.
Proof.
  exact (bisect_loop_call_bound Python2 "b" ["python"] ["w"; "x"; "y"; "z"] 4 1
           Env.at_start _ _ (run_exec Env.respond _ Env.y_fails)).
Defined.

Lemma teardown_sets_state_only_witness :
  ∃ σ', teardown Sample.saved Sample.no_language = Ret (tt, σ')
        ∧ settings σ' !! "LANGUAGE_CODE" = Some (VStr "en-us")
        ∧ settings σ' !! "STATIC_ROOT" = Some (VStr "").
Proof.
  destruct (teardown_sets_state_only Sample.saved Sample.no_language)
    as (σ' & Htd & _ & Hother & Hset & _).
  exists σ'. split_and!; [exact Htd| |].
  - apply Hset; [apply (bool_decide_unpack _); vm_compute; exact I|in_list].
  - rewrite Hother; [reflexivity|]. intros H. not_in_list H.
Defined.


Lemma paired_tests_body_skips_teardown_witness :
  (run Env.respond
     (paired_tests_body "python" "runtests.py" "a" Env.opts ["x"; "y"; "z"]
        Sample.saved Sample.no_language)
     Env.y_fails).1.2 = Done (tt, Sample.no_language).
Proof.
  assert (last (run Env.respond
                  (paired_tests_body "python" "runtests.py" "a" Env.opts
                     ["x"; "y"; "z"] Sample.saved Sample.no_language)
                  Env.y_fails).1.1
          = Some (APrint "***** Found problem pair with y")) as Hlast
    by (vm_compute; reflexivity).
  destruct (paired_tests_body_skips_teardown "python" "runtests.py" "a" Env.opts
              ["x"; "y"; "z"] Sample.saved Sample.no_language _ _
              (run_exec Env.respond _ Env.y_fails))
    as [[Hno _]|(label & _ & Ho)].
  - rewrite Hlast in Hno. discriminate Hno.
  - exact Ho.
Defined.

Lemma get_test_modules_filter_witness :
  ∃ ms,
    (run Env.respond
       (get_test_modules "/django/tests" "/django/django/contrib" (λ f, f)
          Env.at_start) Env.checkout).1.2 = Done (ms, Env.at_start)
    ∧ ∀ mp f, (mp, f) ∈ ms → has_char dot f = false ∧ f ≠ "__pycache__".
Proof.
  destruct (get_test_modules_filter "/django/tests" "/django/django/contrib"
              (λ f, f) Env.at_start _ _ (run_exec Env.respond _ Env.checkout))
    as (e1 & e2 & ms & Ho & _ & _ & H).
  exists ms. split; [exact Ho|].
  intros mp f Hin. destruct (H mp f Hin) as (_ & H1 & H2 & _). by split.
Defined.

Lemma load_test_modules_appends_witness :
  ∃ σ' added,
    (run Env.respond (load_test_modules 1 [] ∅ Sample.modules Sample.redirected)
       Env.quiet).1.2 = Done (tt, σ')
    ∧ settings σ' = settings Sample.redirected
    ∧ lists σ' !! ALWAYS_INSTALLED_APPS
      = Some (ALWAYS_INSTALLED_APPS_items ++ (VStr <$> added))%list
    ∧ NoDup added.
Proof.
  assert (∃ σ',
            (run Env.respond
               (load_test_modules 1 [] ∅ Sample.modules Sample.redirected)
               Env.quiet).1.2 = Done (tt, σ'))
    as [σ' E] by (eexists; reflexivity).
  pose proof (run_exec Env.respond
                (load_test_modules 1 [] ∅ Sample.modules Sample.redirected)
                Env.quiet) as Hrun.
  rewrite E in Hrun.
  destruct (load_test_modules_appends 1 [] ∅ Sample.modules Sample.redirected σ'
              ALWAYS_INSTALLED_APPS ALWAYS_INSTALLED_APPS_items _
              eq_refl eq_refl Hrun)
    as (Hs & _ & added & Hl & Hnd & _).
  by exists σ', added.
Defined.

Lemma setup_teardown_leftovers_witness :
  ∃ st σ1 σ2,
    (run Env.respond
       (setup "/django/tests" "/django/django/contrib" "/tmp/django_0"
          "/django/django" Env.path_join (λ f, f) 1 [] 0 Env.at_start)
       Env.checkout).1.2 = Done (st, σ1)
    ∧ teardown st σ1 = Ret (tt, σ2)
    ∧ settings σ2 !! "SITE_ID" = Some (VInt 1)
    ∧ settings σ2 !! "ROOT_URLCONF" = Some (VStr "").
Proof.
  assert (∃ st σ1,
            (run Env.respond
               (setup "/django/tests" "/django/django/contrib" "/tmp/django_0"
                  "/django/django" Env.path_join (λ f, f) 1 [] 0 Env.at_start)
               Env.checkout).1.2 = Done (st, σ1))
    as (st & σ1 & E) by (eexists _, _; reflexivity).
  pose proof (run_exec Env.respond
                (setup "/django/tests" "/django/django/contrib" "/tmp/django_0"
                   "/django/django" Env.path_join (λ f, f) 1 [] 0 Env.at_start)
                Env.checkout) as Hrun.
  rewrite E in Hrun.
  destruct (setup_teardown_leftovers "/django/tests" "/django/django/contrib"
              "/tmp/django_0" "/django/django" Env.path_join (λ f, f) 1 [] 0
              Env.at_start σ1 st _ Hrun)
    as (σ2 & Htd & Hsite & Hroot & _).
  exists st, σ1, σ2. split_and!; [exact E|exact Htd|exact Hsite|].
  apply Hroot. reflexivity.
Defined.

Lemma setup_missing_setting_witness :
  setup "/django/tests" "/django/django/contrib" "/tmp/django_0" "/django/django"
    Env.path_join (λ f, f) 1 [] 0 Sample.no_language
  = Raise (AttributeError "LANGUAGE_CODE").
Proof.
  destruct (setup_missing_setting "/django/tests" "/django/django/contrib"
              "/tmp/django_0" "/django/django" Env.path_join (λ f, f) 1 [] 0
              Sample.no_language) as (_ & _ & H & _).
  apply H; [eexists; reflexivity|eexists; reflexivity|reflexivity].
Defined.

Lemma reduce_label_names_the_app_witness :
  reduce_label "basic.tests.ModelTest" = "basic"
  ∧ reduce_label "django.contrib.auth.tests" = "django.contrib.auth".
Proof.
  destruct reduce_label_names_the_app as (_ & H2 & _ & H4).
  split.
  - apply (H2 "basic" "tests.ModelTest"); [reflexivity|discriminate].
  - apply (H4 "auth" "tests"). reflexivity.
Defined.

End RuntestsExtraChecks.

Module DriverExtraChecks.
Import Runtests RuntestsProofs Driver DriverExtras.

Lemma rsplit_dot_head_strips_last_witness :
  rsplit_dot_head "django.contrib.auth.models" = "django.contrib.auth".
Proof.
  destruct rsplit_dot_head_strips_last as [_ H].
  apply (H "django.contrib.auth" "models"). reflexivity.
Defined.

Lemma django_tests_restores_witness :
  ∃ σ',
    (run Env.respond
       (django_tests "/django/tests" "/django/django/contrib" "/tmp/django_0"
          "/django/django" Env.path_join (λ f, f) true [true] 4 Sample.runner
          1 true false ["basic"] 0 Env.at_start)
       Env.checkout).1.2 = Done (2, σ')
    ∧ settings σ' !! "LANGUAGE_CODE" = Some (VStr "en-us").
Proof.
  assert (∃ σ',
            (run Env.respond
               (django_tests "/django/tests" "/django/django/contrib"
                  "/tmp/django_0" "/django/django" Env.path_join (λ f, f) true
                  [true] 4 Sample.runner 1 true false ["basic"] 0 Env.at_start)
               Env.checkout).1.2 = Done (2, σ'))
    as [σ' E] by (eexists; reflexivity).
  pose proof (run_exec Env.respond
                (django_tests "/django/tests" "/django/django/contrib"
                   "/tmp/django_0" "/django/django" Env.path_join (λ f, f) true
                   [true] 4 Sample.runner 1 true false ["basic"] 0 Env.at_start)
                Env.checkout) as Hrun.
  rewrite E in Hrun.
  destruct (django_tests_restores "/django/tests" "/django/django/contrib"
              "/tmp/django_0" "/django/django" Env.path_join (λ f, f) true
              [true] 4 Sample.runner 1 true false ["basic"] 0 2 Env.at_start σ'
              _ Hrun) as [H _].
  exists σ'. split; [exact E|].
  apply (H "LANGUAGE_CODE"). unfold saved_settings. in_list.
Defined.

Lemma dispatch_outcomes_witness :
  (run Env.respond
     (dispatch Python3 "/django/tests" "/django/django/contrib" "/tmp/django_0"
        "/django/django" "python" "runtests.py" Env.path_join (λ f, f) true
        [true] 4 Sample.runner Sample.bisecting Env.at_start)
     Env.checkout).1.2
  = Raised (TypeError "setup() takes exactly 3 arguments (2 given)").
Proof.
  destruct (dispatch_outcomes Python3 "/django/tests" "/django/django/contrib"
              "/tmp/django_0" "/django/django" "python" "runtests.py"
              Env.path_join (λ f, f) true [true] 4 Sample.runner Sample.bisecting
              Env.at_start _ _ (run_exec Env.respond _ Env.checkout))
    as [H _].
  destruct (H eq_refl) as [_ Ho]. exact Ho.
Defined.

End DriverExtraChecks.
